(** * Coinflow API: validated document ingestion and retrieval

    A shallow embedding of [main.py] (the request models [ExpenseIn],
    [BudgetIn], [GoalIn], the six create/list handlers and the health
    check), together with the properties the specification states about
    them.

    Python values are an inductive type, dictionaries are [gmap string value],
    floats are IEEE binary64 numbers ([spec_float] at precision 53), and
    a handler is a function from the world it runs in (document store,
    clock, log of store calls) to an HTTP response and the world after. *)

From Stdlib Require Import ZArith NArith String Ascii List SpecFloat Lia.
From stdpp Require Import base option list gmap strings pretty.

Local Open Scope string_scope.

(** ** Python values *)

Module Py.

(** What [json.loads] produces from a request body, plus the store's
    native identifier ([bson.ObjectId], twelve bytes read as a number). *)
#[warnings="-register-all"] Inductive value :=
| PNone
| PBool (b : bool)
| PInt (z : Z)
| PFloat (f : spec_float)
| PStr (s : string)
| PObjectId (oid : N)
| PList (l : list value)
| PDict (kvs : list (string * value)).

Abbreviation dict := (gmap string value).

(** binary64 *)
Definition prec : Z := 53.
Definition emax : Z := 1024.

Definition float_of_Z (z : Z) : spec_float := binary_normalize prec emax z 0 false.

Definition float_zero : spec_float := S754_zero false.

(** [x <= 0] on floats; false on NaN. *)
Definition float_le0 (x : spec_float) : bool := SFleb x float_zero.

Definition float_same (x y : spec_float) : bool :=
  match x, y with
  | S754_zero a, S754_zero b => Bool.eqb a b
  | S754_infinity a, S754_infinity b => Bool.eqb a b
  | S754_nan, S754_nan => true
  | S754_finite a m e, S754_finite b n f =>
      Bool.eqb a b && (m =? n)%positive && (e =? f)%Z
  | _, _ => false
  end.

(** Structural equality of values, the comparison an exact-match filter
    uses. *)
Fixpoint value_eqb (x y : value) {struct x} : bool :=
  match x, y with
  | PNone, PNone => true
  | PBool a, PBool b => Bool.eqb a b
  | PInt a, PInt b => (a =? b)%Z
  | PFloat a, PFloat b => float_same a b
  | PStr a, PStr b => String.eqb a b
  | PObjectId a, PObjectId b => (a =? b)%N
  | PList a, PList b =>
      (fix go (l1 l2 : list value) {struct l1} : bool :=
         match l1, l2 with
         | [], [] => true
         | u :: l1', v :: l2' => value_eqb u v && go l1' l2'
         | _, _ => false
         end) a b
  | PDict a, PDict b =>
      (fix go (l1 l2 : list (string * value)) {struct l1} : bool :=
         match l1, l2 with
         | [], [] => true
         | (j, u) :: l1', (k, v) :: l2' =>
             String.eqb j k && value_eqb u v && go l1' l2'
         | _, _ => false
         end) a b
  | _, _ => false
  end.

(** Truth value of an object, as [if x:] and [x or y] test it. *)
Definition truthy (v : value) : bool :=
  match v with
  | PNone => false
  | PBool b => b
  | PInt z => negb (z =? 0)%Z
  | PFloat (S754_zero _) => false
  | PFloat _ => true
  | PStr s => negb (String.eqb s "")
  | PObjectId _ => true
  | PList l => match l with [] => false | _ => true end
  | PDict kvs => match kvs with [] => false | _ => true end
  end.

(** [d.get(k)]: the value under [k], [None] when the key is missing. *)
Definition get (d : dict) (k : string) : value := default PNone (d !! k).

(** The dictionary a JSON object decodes to: a later duplicate key wins. *)
Definition dict_of_pairs (kvs : list (string * value)) : dict :=
  fold_left (fun m kv => <[kv.1 := kv.2]> m) kvs ∅.

(** A text is held as its UTF-8 bytes; a byte [10xxxxxx] continues the
    code point the bytes before it began. *)
Definition is_continuation (c : ascii) : bool :=
  match c with
  | Ascii _ _ _ _ _ _ b6 b7 => b7 && negb b6
  end.

(** [len(s)]: the number of code points. *)
Fixpoint len (s : string) : nat :=
  match s with
  | EmptyString => 0
  | String c s' => if is_continuation c then len s' else S (len s')
  end.

(** [s[:n]]: the first [n] code points. *)
Fixpoint slice_to (n : nat) (s : string) : string :=
  match s with
  | EmptyString => EmptyString
  | String c s' =>
      if is_continuation c then String c (slice_to n s')
      else match n with
           | O => EmptyString
           | S k => String c (slice_to k s')
           end
  end.

(** An [Optional[str]] as a value. *)
Definition of_opt_str (o : option string) : value :=
  match o with Some s => PStr s | None => PNone end.

(** *** Rendering an ObjectId: 24 lowercase hexadecimal digits *)

Definition hex_digit (n : N) : ascii :=
  match n with
  | 0 => "0" | 1 => "1" | 2 => "2" | 3 => "3" | 4 => "4" | 5 => "5"
  | 6 => "6" | 7 => "7" | 8 => "8" | 9 => "9" | 10 => "a" | 11 => "b"
  | 12 => "c" | 13 => "d" | 14 => "e" | _ => "f"
  end%N%char.

Fixpoint hex_fixed (digits : nat) (n : N) (acc : string) : string :=
  match digits with
  | O => acc
  | S k => hex_fixed k (n / 16)%N (String (hex_digit (n mod 16)%N) acc)
  end.

Definition oid_hex (oid : N) : string := hex_fixed 24 oid "".

Section Str.

(** [str] of a float, a list or a dict follows Python's [repr]
    algorithms, which the handlers never depend on. *)
Variable repr_other : value -> string.

(** The builtin [str]. *)
Definition str (v : value) : string :=
  match v with
  | PNone => "None"
  | PBool true => "True"
  | PBool false => "False"
  | PInt z => pretty z
  | PStr s => s
  | PObjectId oid => oid_hex oid
  | PFloat _ | PList _ | PDict _ => repr_other v
  end.

End Str.

End Py.

(** ** Request validation (pydantic models behind FastAPI) *)

Module Pydantic.
Import Py.

Inductive error_type :=
| missing
| model_attributes_type
| string_type
| float_type
| float_parsing
| int_parsing
| greater_than_equal (ge : Z)
| less_than_equal (le : Z).

(** One entry of a validation failure: the violated constraint and the
    path of the offending input. *)
Record error_details := ErrorDetails { type : error_type; loc : list string }.

(** Validation either yields a value or the list of all failures; failures
    of different fields accumulate. *)
Definition validated (A : Type) : Type := list error_details + A.

Definition pure {A} (a : A) : validated A := inr a.

Definition ap {A B} (f : validated (A -> B)) (x : validated A) : validated B :=
  match f, x with
  | inr g, inr a => inr (g a)
  | inr _, inl ex => inl ex
  | inl ef, inr _ => inl ef
  | inl ef, inl ex => inl (ef ++ ex)%list
  end.

Infix "<*>" := ap (at level 61, left associativity).

(** A field validator sees one input value. *)
Definition validator (A : Type) : Type := value -> error_type + A.

Definition at_loc {A} (where_ : list string) (r : error_type + A) : validated A :=
  match r with
  | inl t => inl [ErrorDetails t where_]
  | inr a => inr a
  end.

(** [name: T] with no default: the key must be present. *)
Definition required {A} (v : validator A) (name : string) (input : dict) : validated A :=
  at_loc ["body"; name]
    match input !! name with
    | None => inl missing
    | Some x => v x
    end.

(** [name: T = dflt]: the default is taken as it is when the key is absent. *)
Definition defaulted {A} (v : validator A) (dflt : A) (name : string) (input : dict)
  : validated A :=
  at_loc ["body"; name]
    match input !! name with
    | None => inr dflt
    | Some x => v x
    end.

(** [Optional[T]]: [None] passes, anything else goes to [T]'s validator. *)
Definition optional {A} (v : validator A) : validator (option A) :=
  fun x =>
    match x with
    | PNone => inr None
    | _ => match v x with inl t => inl t | inr a => inr (Some a) end
    end.

(** [str]: only a string is a string. *)
Definition str_ : validator string :=
  fun x => match x with PStr s => inr s | _ => inl string_type end.

Section Lax.

(** What the library's lax mode makes of an input that is not a float
    (an int, a numeric string): a float, or nothing. *)
Variable lax_float : value -> option spec_float.

(** [float] *)
Definition float_ : validator spec_float :=
  fun x =>
    match x with
    | PFloat f => inr f
    | _ =>
        match lax_float x with
        | Some f => inr f
        | None => inl match x with PStr _ => float_parsing | _ => float_type end
        end
    end.

End Lax.

Section Query.

(** The library's reading of a query-string value as an [int]. *)
Variable int_of_str : string -> option Z.

(** [name: int = Query(dflt, ge=.., le=..)] *)
Definition Query (dflt ge le : Z) (name : string) (raw : option string) : validated Z :=
  at_loc ["query"; name]
    match raw with
    | None => inr dflt
    | Some s =>
        match int_of_str s with
        | None => inl int_parsing
        | Some n =>
            if (le <? n)%Z then inl (less_than_equal le)
            else if (n <? ge)%Z then inl (greater_than_equal ge)
            else inr n
        end
    end.

End Query.

(** A request body is validated as a model only when it is a JSON object. *)
Definition model {A} (fields : dict -> validated A) (body : value) : validated A :=
  match body with
  | PDict kvs => fields (dict_of_pairs kvs)
  | _ => inl [ErrorDetails model_attributes_type ["body"]]
  end.

End Pydantic.

(** ** The document access facade *)

Module database.
Import Py.

(** An exception, carrying the text [str(e)] gives. *)
Inductive exception := Exception (message : string).

Definition exception_str (e : exception) : string :=
  match e with Exception m => m end.

(** Modelled from the spec: the module [database] ([db], [create_document],
    [get_documents]) is imported by [main.py] and is not among the sources.
    The store holds, per collection name, its documents in insertion order;
    [fault] is set when the store is unreachable or rejects operations, and
    carries the text of the storage error. *)
Record store := Store {
  fault : option string;
  collections : gmap string (list dict);
  next_oid : N
}.

Definition documents (s : store) (collection_name : string) : list dict :=
  default [] (collections s !! collection_name).

(** Modelled from the spec: a document passes an exact-match filter when
    every field of the filter is present in it with that very value; the
    empty filter passes everything. *)
Definition matches (filter_dict d : dict) : bool :=
  forallb (fun kv => match d !! kv.1 with
                     | Some v => value_eqb kv.2 v
                     | None => false
                     end)
          (map_to_list filter_dict).

(** Modelled from the spec: [insert] persists one document into the named
    collection and returns a store-assigned unique identifier, as a string;
    it fails with a storage error when the store is unreachable. *)
Definition create_document (collection_name : string) (data : dict) (s : store)
  : (exception + string) * store :=
  match fault s with
  | Some m => (inl (Exception m), s)
  | None =>
      let oid := next_oid s in
      let stored := <["_id" := PObjectId oid]> data in
      (inr (oid_hex oid),
       Store None
             (<[collection_name := (documents s collection_name ++ [stored])%list]>
                (collections s))
             (N.succ oid))
  end.

(** Modelled from the spec: [find] returns the documents of the collection
    that pass the filter, in insertion order, capped at [limit]; it has no
    side effect and fails with a storage error when the store is
    unreachable. *)
Definition get_documents (collection_name : string) (filter_dict : dict) (limit : Z)
    (s : store) : (exception + list dict) * store :=
  match fault s with
  | Some m => (inl (Exception m), s)
  | None =>
      (inr (take (Z.to_nat limit)
                 (List.filter (matches filter_dict) (documents s collection_name))),
       s)
  end.

End database.

(** ** Handlers as programs over a world *)

Module Http.
Import Py Pydantic database.

(** A call made on the facade. *)
Inductive call :=
| Insert (collection_name : string) (data : dict)
| Find (collection_name : string) (filter_dict : dict) (limit : Z).

(** What a handler runs in: the store, the UTC clock as [isoformat] renders
    its reading, and the log of the facade calls made so far. *)
Record world := World {
  db : store;
  clock : string;
  calls : list call
}.

(** A computation may raise, and threads the world. *)
Definition M (A : Type) : Type := world -> (exception + A) * world.

Definition ret {A} (a : A) : M A := fun w => (inr a, w).

Definition bind {A B} (m : M A) (k : A -> M B) : M B :=
  fun w =>
    match m w with
    | (inr a, w') => k a w'
    | (inl e, w') => (inl e, w')
    end.

Notation "x <- m ;; k" := (bind m (fun x => k))
  (at level 100, m at next level, right associativity).

(** [datetime.utcnow().isoformat()] *)
Definition utcnow_isoformat : M string := fun w => (inr (clock w), w).

(** The facade, called from a handler. *)
Definition call_create_document (collection_name : string) (data : dict) : M string :=
  fun w =>
    let (r, s) := create_document collection_name data (db w) in
    (r, World s (clock w) (calls w ++ [Insert collection_name data])%list).

Definition call_get_documents (collection_name : string) (filter_dict : dict)
    (limit : Z) : M (list dict) :=
  fun w =>
    let (r, s) := get_documents collection_name filter_dict limit (db w) in
    (r, World s (clock w) (calls w ++ [Find collection_name filter_dict limit])%list).

(** [a or b]: [b] is evaluated only when [a] is falsy. *)
Definition py_or (a : value) (b : M value) : M value :=
  if truthy a then ret a else b.

Inductive response :=
| OkId (id : string)
| OkItems (items : list dict)
| HTTPException (status_code : Z) (detail : string)
| RequestValidationError (errors : list error_details).

Definition status (r : response) : Z :=
  match r with
  | OkId _ | OkItems _ => 200
  | HTTPException status_code _ => status_code
  | RequestValidationError _ => 422
  end.

(** [try: ... except Exception as e: raise HTTPException(status_code=500,
    detail=str(e))] *)
Definition try_except_500 (body : M response) : world -> response * world :=
  fun w =>
    match body w with
    | (inr r, w') => (r, w')
    | (inl e, w') => (HTTPException 500 (exception_str e), w')
    end.

(** The framework validates the parameters first and enters the handler
    only with valid ones. *)
Definition endpoint {A} (params : validated A) (handler : A -> world -> response * world)
  : world -> response * world :=
  fun w =>
    match params with
    | inl errors => (RequestValidationError errors, w)
    | inr a => handler a w
    end.

End Http.

(** ** main.py *)

Module main.
Import Py Pydantic database Http.

Module ExpenseIn.

Record t := Build {
  amount : spec_float;
  currency : string;
  date : option string;
  merchant : option string;
  note : option string;
  category : option string;
  account : option string;
  type : string
}.

Definition fields (lax_float : value -> option spec_float) (input : dict) : validated t :=
  pure Build
    <*> required (float_ lax_float) "amount" input
    <*> defaulted str_ "USD" "currency" input
    <*> defaulted (optional str_) None "date" input
    <*> defaulted (optional str_) None "merchant" input
    <*> defaulted (optional str_) None "note" input
    <*> defaulted (optional str_) None "category" input
    <*> defaulted (optional str_) None "account" input
    <*> defaulted str_ "debit" "type" input.

Definition validate (lax_float : value -> option spec_float) : value -> validated t :=
  model (fields lax_float).

Definition model_dump (m : t) : dict :=
  <["amount" := PFloat (amount m)]>
  (<["currency" := PStr (currency m)]>
  (<["date" := of_opt_str (date m)]>
  (<["merchant" := of_opt_str (merchant m)]>
  (<["note" := of_opt_str (note m)]>
  (<["category" := of_opt_str (category m)]>
  (<["account" := of_opt_str (account m)]>
  (<["type" := PStr (type m)]> ∅))))))).

End ExpenseIn.

Module BudgetIn.

Record t := Build {
  category : string;
  amount : spec_float;
  month : option string
}.

Definition fields (lax_float : value -> option spec_float) (input : dict) : validated t :=
  pure Build
    <*> required str_ "category" input
    <*> required (float_ lax_float) "amount" input
    <*> defaulted (optional str_) None "month" input.

Definition validate (lax_float : value -> option spec_float) : value -> validated t :=
  model (fields lax_float).

Definition model_dump (m : t) : dict :=
  <["category" := PStr (category m)]>
  (<["amount" := PFloat (amount m)]>
  (<["month" := of_opt_str (month m)]> ∅)).

End BudgetIn.

Module GoalIn.

(** [current_amount: float = 0]: a supplied value is validated to a float,
    the default stays the int it is written as. *)
Record t := Build {
  name : string;
  target_amount : spec_float;
  current_amount : value;
  deadline : option string
}.

Definition fields (lax_float : value -> option spec_float) (input : dict) : validated t :=
  pure Build
    <*> required str_ "name" input
    <*> required (float_ lax_float) "target_amount" input
    <*> defaulted (fun x => match float_ lax_float x with
                            | inl e => inl e
                            | inr f => inr (PFloat f)
                            end)
                  (PInt 0) "current_amount" input
    <*> defaulted (optional str_) None "deadline" input.

Definition validate (lax_float : value -> option spec_float) : value -> validated t :=
  model (fields lax_float).

Definition model_dump (m : t) : dict :=
  <["name" := PStr (name m)]>
  (<["target_amount" := PFloat (target_amount m)]>
  (<["current_amount" := current_amount m]>
  (<["deadline" := of_opt_str (deadline m)]> ∅))).

End GoalIn.

(** [db] as [main.py] uses it in the health check: [None], or a handle
    that may have a [name] and whose [list_collection_names()] answers or
    raises. *)
Record handle := Handle {
  name : option string;
  list_collection_names : exception + list string
}.

(** [GET /test] *)
Definition test_database (db : option handle) (getenv : string -> option string) : dict :=
  let response : dict :=
    <["backend" := PStr "✅ Running"]>
    (<["database" := PStr "❌ Not Available"]>
    (<["database_url" := PNone]>
    (<["database_name" := PNone]>
    (<["connection_status" := PStr "Not Connected"]>
    (<["collections" := PList []]> ∅))))) in
  let response :=
    match db with
    | Some h =>
        let response := <["database" := PStr "✅ Available"]> response in
        let response := <["database_url" := PStr "✅ Configured"]> response in
        let response :=
          <["database_name" := PStr (default "✅ Connected" (name h))]> response in
        let response := <["connection_status" := PStr "Connected"]> response in
        match list_collection_names h with
        | inr collections =>
            let response :=
              <["collections" := PList (map PStr (take 10 collections))]> response in
            <["database" := PStr "✅ Connected & Working"]> response
        | inl e =>
            <["database" := PStr ("⚠️  Connected but Error: "
                                  ++ slice_to 50 (exception_str e))]> response
        end
    | None => <["database" := PStr "⚠️  Available but not initialized"]> response
    end in
  let set (v : option string) : value :=
    PStr (if truthy (of_opt_str v) then "✅ Set" else "❌ Not Set") in
  let response := <["database_url" := set (getenv "DATABASE_URL")]> response in
  <["database_name" := set (getenv "DATABASE_NAME")]> response.

Section Handlers.

Variable lax_float : value -> option spec_float.
Variable int_of_str : string -> option Z.
Variable repr_other : value -> string.

(** [for d in docs: d["_id"] = str(d.get("_id"))] *)
Definition stringify_ids (docs : list dict) : list dict :=
  map (fun d => <["_id" := PStr (str repr_other (get d "_id"))]> d) docs.

(** [POST /api/expenses] *)
Definition add_expense (expense : value) : world -> response * world :=
  endpoint (ExpenseIn.validate lax_float expense) (fun expense =>
    try_except_500 (
      let data := ExpenseIn.model_dump expense in
      date <- py_or (get data "date")
                (now <- utcnow_isoformat ;; ret (PStr now)) ;;
      let data := <["date" := date]> data in
      inserted_id <- call_create_document "expense" data ;;
      ret (OkId inserted_id))).

(** [GET /api/expenses] *)
Definition list_expenses (category limit : option string) : world -> response * world :=
  endpoint (Query int_of_str 50 1 500 "limit" limit) (fun limit =>
    try_except_500 (
      let filter_query : dict := {["type" := PStr "debit"]} in
      let category := of_opt_str category in
      let filter_query :=
        if truthy category then <["category" := category]> filter_query
        else filter_query in
      docs <- call_get_documents "expense" filter_query limit ;;
      ret (OkItems (stringify_ids docs)))).

(** [POST /api/budgets] *)
Definition add_budget (budget : value) : world -> response * world :=
  endpoint (BudgetIn.validate lax_float budget) (fun budget =>
    try_except_500 (
      let data := BudgetIn.model_dump budget in
      inserted_id <- call_create_document "budget" data ;;
      ret (OkId inserted_id))).

(** [GET /api/budgets] *)
Definition list_budgets (month limit : option string) : world -> response * world :=
  endpoint (Query int_of_str 50 1 200 "limit" limit) (fun limit =>
    try_except_500 (
      let filter_query : dict := ∅ in
      let month := of_opt_str month in
      let filter_query :=
        if truthy month then <["month" := month]> filter_query
        else filter_query in
      docs <- call_get_documents "budget" filter_query limit ;;
      ret (OkItems (stringify_ids docs)))).

(** [POST /api/goals] *)
Definition add_goal (goal : value) : world -> response * world :=
  endpoint (GoalIn.validate lax_float goal) (fun goal =>
    try_except_500 (
      let data := GoalIn.model_dump goal in
      inserted_id <- call_create_document "goal" data ;;
      ret (OkId inserted_id))).

(** [GET /api/goals] *)
Definition list_goals (limit : option string) : world -> response * world :=
  endpoint (Query int_of_str 50 1 200 "limit" limit) (fun limit =>
    try_except_500 (
      docs <- call_get_documents "goal" ∅ limit ;;
      ret (OkItems (stringify_ids docs)))).

End Handlers.

End main.

(** ** Vocabulary of the statements *)

Module Terms.
Import Py Pydantic database Http.

(** The world a create handler leaves: the call is logged, and a reachable
    store holds one more document. *)
Definition after_insert (collection_name : string) (data : dict) (w : world) : world :=
  World
    match fault (db w) with
    | Some _ => db w
    | None =>
        Store None
          (<[collection_name :=
               (documents (db w) collection_name
                  ++ [<["_id" := PObjectId (next_oid (db w))]> data])%list]>
             (collections (db w)))
          (N.succ (next_oid (db w)))
    end
    (clock w)
    (calls w ++ [Insert collection_name data])%list.

(** The date [add_expense] hands to the store. *)
Definition ingested_date (date : option string) (w : world) : value :=
  if truthy (of_opt_str date) then of_opt_str date else PStr (clock w).

(** Running a handler from [w] left [d] as the newest document of the
    collection, after those it held. *)
Definition stores (collection_name : string) (w w' : world) (d : dict) : Prop :=
  documents (db w') collection_name = (documents (db w) collection_name ++ [d])%list.

(** The facade calls a handler made, given the worlds before and after. *)
Definition called (w w' : world) (cs : list call) : Prop :=
  calls w' = (calls w ++ cs)%list.

(** A response that is a validation failure naming [where_]. *)
Definition rejects_at (r : response) (where_ : list string) : Prop :=
  exists t, r = RequestValidationError [ErrorDetails t where_].

(** A storage failure with text [m] surfaced by a handler: a 500 carrying
    the text, one call on the facade and no more, the store as it was. *)
Definition surfaces (m : string) (w : world) (rw : response * world) : Prop :=
  rw.1 = HTTPException 500 m /\ (exists c, called w rw.2 [c]) /\ db rw.2 = db w.

(** What a list handler does once its limit is valid. *)
Definition find_run (repr_other : value -> string) (collection_name : string)
    (filter_dict : dict) (n : Z) (w : world) : response * world :=
  (match fault (db w) with
   | Some m => HTTPException 500 m
   | None =>
       OkItems (main.stringify_ids repr_other
                  (take (Z.to_nat n)
                     (List.filter (matches filter_dict)
                        (documents (db w) collection_name))))
   end,
   World (db w) (clock w) (calls w ++ [Find collection_name filter_dict n])%list).

(** The filters the list handlers build: the equalities they always
    carry, and the narrowing equality when the parameter is a non-empty
    string. *)
Definition narrowed (field : string) (param : option string) (base : dict) : dict :=
  match param with
  | Some c => if String.eqb c "" then base else <[field := PStr c]> base
  | None => base
  end.

Definition expense_filter (category : option string) : dict :=
  narrowed "category" category {["type" := PStr "debit"]}.

Definition budget_filter (month : option string) : dict :=
  narrowed "month" month ∅.

(** The integer a [limit] parameter stands for: its default when absent,
    what the library reads from its text when present. *)
Definition limit_reads (int_of_str : string -> option Z) (limit : option string) (n : Z)
  : Prop :=
  match limit with
  | None => n = 50%Z
  | Some s => int_of_str s = Some n
  end.

(** A list handler run at limit [n]: within [lo..hi] it makes one [find] on
    its collection with that very limit; outside, it answers 422 naming the
    limit parameter and the world stays as it was. *)
Definition limit_enforced (lo hi n : Z) (collection_name : string) (w : world)
    (rw : response * world) : Prop :=
  if ((lo <=? n)%Z && (n <=? hi)%Z)%bool
  then exists filter_dict, called w rw.2 [Find collection_name filter_dict n]
  else status rw.1 = 422%Z /\ rejects_at rw.1 ["query"; "limit"] /\ rw.2 = w.

End Terms.

(** ** Sample data the statements below are run on *)

Module Samples.
Import Py Pydantic database Http.

(** No lax conversion at all: only floats are floats. *)
Definition strict_float : value -> option spec_float := fun _ => None.

(** Decimal digits read as a natural number. *)
Definition digit_of (c : ascii) : option Z :=
  let n := N_of_ascii c in
  if (48 <=? n)%N && (n <=? 57)%N then Some (Z.of_N (n - 48)) else None.

Fixpoint decimal (acc : Z) (s : string) : option Z :=
  match s with
  | EmptyString => Some acc
  | String c s' =>
      match digit_of c with
      | Some d => decimal (10 * acc + d) s'
      | None => None
      end
  end.

Definition int_of_digits (s : string) : option Z :=
  match s with
  | EmptyString => None
  | _ => decimal 0 s
  end.

Definition no_repr : value -> string := fun _ => "".

Definition noon : string := "2024-05-01T12:00:00.000000".

(** A reachable, empty store. *)
Definition empty_world : world := World (Store None ∅ 0) noon [].

(** A store that cannot be reached. *)
Definition refused : string :=
  "localhost:27017: [Errno 111] Connection refused, Timeout: 30s, Topology Description: unknown".

(** An error text of any length. *)
Fixpoint long_text (n : nat) : string :=
  match n with
  | O => EmptyString
  | S k => String "x" (long_text k)
  end.

Definition down_world : world := World (Store (Some refused) ∅ 0) noon [].

Definition minus_five : spec_float := float_of_Z (-5).
Definition twelve : spec_float := float_of_Z 12.

Definition lunch : value :=
  PDict [("amount", PFloat twelve); ("category", PStr "food")].

Definition taxi : value :=
  PDict [("amount", PFloat twelve); ("category", PStr "travel")].

Definition lunch_undated : value :=
  PDict [("amount", PFloat twelve); ("date", PStr "")].

Definition lunch_dated : value :=
  PDict [("amount", PFloat twelve); ("date", PStr "2024-04-30")].

Definition refund : value :=
  PDict [("amount", PFloat twelve); ("type", PStr "refund")].

Definition negative_budget : value :=
  PDict [("category", PStr "food"); ("amount", PFloat minus_five)].

Definition zero_goal : value :=
  PDict [("name", PStr "car"); ("target_amount", PFloat float_zero)].

(** The world after the two expenses of the filter example were created. *)
Definition two_expenses : world :=
  (main.add_expense strict_float taxi
     (main.add_expense strict_float lunch empty_world).2).2.

End Samples.

(** ** Outcomes of validation and of a run *)

Module Outcomes.
Import Py Pydantic database Http Terms Samples.

(** A validation that failed with [e] among its errors. *)
Definition fails_with {A} (e : error_details) (r : validated A) : Prop :=
  exists errors, r = inl errors /\ e ∈ errors.

(** A run answered 422 with [e] among the errors and left the world as it
    was. *)
Definition rejected_with (e : error_details) (w : world) (rw : response * world) : Prop :=
  exists errors, rw = (RequestValidationError errors, w) /\ e ∈ errors.

(** What the field types let through: a [float] field takes a float or
    what the lax conversion makes one; a [str] field takes a string; an
    [Optional[str]] field takes a string or [None]. A field with a default
    may also be absent. *)
Definition float_given (lax_float : value -> option spec_float) (o : option value) : bool :=
  match o with
  | Some (PFloat _) => true
  | Some v => match lax_float v with Some _ => true | None => false end
  | None => false
  end.

Definition str_given (o : option value) : bool :=
  match o with
  | Some (PStr _) => true
  | _ => false
  end.

Definition str_or_absent (o : option value) : bool :=
  match o with
  | None | Some (PStr _) => true
  | Some _ => false
  end.

Definition opt_str_or_absent (o : option value) : bool :=
  match o with
  | None | Some PNone | Some (PStr _) => true
  | Some _ => false
  end.

Definition float_or_absent (lax_float : value -> option spec_float) (o : option value)
  : bool :=
  match o with
  | None => true
  | Some _ => float_given lax_float o
  end.

(** The float a [float] field reads from what the body gives for it. *)
Definition read_float (lax_float : value -> option spec_float) (o : option value)
    (a : spec_float) : Prop :=
  exists v, o = Some v /\ float_ lax_float v = inr a.

(** The date [add_expense] stores for a body: the body's date when it is
    truthy, the clock reading otherwise. *)
Definition date_for (input : dict) (w : world) : value :=
  if truthy (get input "date") then get input "date" else PStr (clock w).

(** A float JSON can render: neither a NaN nor an infinity. *)
Definition finite (f : spec_float) : bool :=
  match f with
  | S754_zero _ | S754_finite _ _ _ => true
  | S754_infinity _ | S754_nan => false
  end.

(** A decoded body the framework can render back as JSON, as its 422
    reply does with the offending input: no float of it, at any depth, is
    a NaN or an infinity. *)
Fixpoint renders (v : value) : bool :=
  match v with
  | PNone | PBool _ | PInt _ | PStr _ => true
  | PFloat f => finite f
  | PObjectId _ => false
  | PList l => forallb renders l
  | PDict kvs => forallb (fun kv => renders (snd kv)) kvs
  end.

(** Calls by kind and collection. *)
Definition insert_on (collection_name : string) (c : call) : Prop :=
  exists data, c = Insert collection_name data.

Definition find_on (collection_name : string) (c : call) : Prop :=
  exists filter_dict limit, c = Find collection_name filter_dict limit.

(** A run made no call on the facade, or one call, of the kind [ok]. *)
Definition at_most_one (ok : call -> Prop) (w w' : world) : Prop :=
  calls w' = calls w \/ exists c, called w w' [c] /\ ok c.

(** [item] is [d] but for its [_id]. *)
Definition same_but_id (item d : dict) : Prop :=
  forall k, k <> "_id" -> item !! k = d !! k.

(** [items] shows at most [n] of the documents [collection], in their
    order, each unchanged but for its [_id], which is the text of the
    document's. *)
Definition view_of (repr_other : value -> string) (n : Z) (collection items : list dict)
  : Prop :=
  exists docs,
    docs `sublist_of` collection /\
    length docs <= Z.to_nat n /\
    Forall2 (fun item d =>
               same_but_id item d /\
               item !! "_id" = Some (PStr (str repr_other (get d "_id"))))
            items docs.

(** What the health check shows for an environment variable. *)
Definition env_flag (v : option string) : value :=
  PStr match v with
       | Some s => if String.eqb s "" then "❌ Not Set" else "✅ Set"
       | None => "❌ Not Set"
       end.


(** The two expenses of the filter example and a third of type "refund". *)
Definition with_refund : world :=
  (main.add_expense strict_float refund two_expenses).2.

End Outcomes.

(** ** Properties *)

(** *** Values and dictionaries *)

Section ValueFacts.
Import Py.

Lemma float_same_eq (x y : spec_float) : float_same x y = true -> x = y.
Proof.
  destruct x as [a|a| |a m e], y as [b|b| |b n f]; simpl; try discriminate;
    try reflexivity.
  - intros H. apply Bool.eqb_prop in H. congruence.
  - intros H. apply Bool.eqb_prop in H. congruence.
  - intros H. apply andb_prop in H as [H He]. apply andb_prop in H as [Hs Hm].
    apply Bool.eqb_prop in Hs. apply Pos.eqb_eq in Hm. apply Z.eqb_eq in He.
    congruence.
Qed.

Lemma value_eqb_eq : forall x y : value, value_eqb x y = true -> x = y.
Proof.
  fix IH 1.
  intros x y. destruct x as [|a|a|a|a|a|l|l], y as [|b|b|b|b|b|l'|l'];
    simpl; try discriminate; intros H.
  - reflexivity.
  - apply Bool.eqb_prop in H. congruence.
  - apply Z.eqb_eq in H. congruence.
  - apply float_same_eq in H. congruence.
  - apply String.eqb_eq in H. congruence.
  - apply N.eqb_eq in H. congruence.
  - f_equal. revert l' H.
    induction l as [|u l IHl]; intros [|v l'] H; try discriminate; [reflexivity|].
    apply andb_prop in H as [Hu Hl]. f_equal; [apply IH, Hu | apply IHl, Hl].
  - f_equal. revert l' H.
    induction l as [|[j u] l IHl]; intros [|[k v] l'] H; try discriminate;
      [reflexivity|].
    apply andb_prop in H as [H Hl]. apply andb_prop in H as [Hk Hu].
    apply String.eqb_eq in Hk. f_equal; [f_equal; [exact Hk | apply IH, Hu] | apply IHl, Hl].
Qed.

End ValueFacts.

(** *** Validation *)

Section ValidationFacts.
Import Py Pydantic.

Lemma ap_inr {A B} (f : validated (A -> B)) (x : validated A) (b : B) :
  f <*> x = inr b -> exists g a, f = inr g /\ x = inr a /\ b = g a.
Proof.
  destruct f as [ef|g], x as [ex|a]; simpl; try discriminate.
  intros [= <-]. eauto.
Qed.

Lemma at_loc_inr {A} (where_ : list string) (r : error_type + A) (a : A) :
  at_loc where_ r = inr a -> r = inr a.
Proof. destruct r; simpl; [discriminate | congruence]. Qed.

Lemma required_inr {A} (v : validator A) name input (a : A) :
  required v name input = inr a -> exists x, input !! name = Some x /\ v x = inr a.
Proof.
  unfold required. intros H. apply at_loc_inr in H.
  destruct (input !! name) as [x|]; [eauto | discriminate].
Qed.

Lemma defaulted_absent {A} (v : validator A) dflt name input (a : A) :
  defaulted v dflt name input = inr a -> input !! name = None -> a = dflt.
Proof.
  unfold defaulted. intros H Hn. rewrite Hn in H. simpl in H. congruence.
Qed.

Lemma defaulted_present {A} (v : validator A) dflt name input (a : A) x :
  defaulted v dflt name input = inr a -> input !! name = Some x -> v x = inr a.
Proof.
  unfold defaulted. intros H Hn. rewrite Hn in H. now apply at_loc_inr in H.
Qed.

Lemma model_inr {A} (fields : dict -> validated A) body (a : A) :
  model fields body = inr a ->
  exists kvs, body = PDict kvs /\ fields (dict_of_pairs kvs) = inr a.
Proof. destruct body; simpl; try discriminate. eauto. Qed.

(** The bounds check of a query parameter, read off [Query]. *)
Lemma Query_inr int_of_str dflt ge le name raw n :
  Query int_of_str dflt ge le name raw = inr n <->
  match raw with
  | None => n = dflt
  | Some s => int_of_str s = Some n /\ (ge <= n <= le)%Z
  end.
Proof.
  unfold Query. destruct raw as [s|]; simpl.
  - destruct (int_of_str s) as [m|]; simpl.
    + destruct (Z.ltb_spec le m); simpl.
      * split; [discriminate | intros [[= ->] ?]; lia].
      * destruct (Z.ltb_spec m ge); simpl.
        -- split; [discriminate | intros [[= ->] ?]; lia].
        -- split; [intros [= ->]; split; [reflexivity | lia] | intros [[= ->] _]; reflexivity].
    + split; [discriminate | intros [[=] _]].
  - split; congruence.
Qed.

Lemma Query_out_of_range int_of_str dflt ge le name s n :
  int_of_str s = Some n -> (n < ge \/ le < n)%Z ->
  exists t, Query int_of_str dflt ge le name (Some s) = inl [ErrorDetails t ["query"; name]]
            /\ (t = greater_than_equal ge \/ t = less_than_equal le).
Proof.
  intros Hs Hn. unfold Query. rewrite Hs.
  destruct (Z.ltb_spec le n); simpl; [eauto |].
  destruct (Z.ltb_spec n ge); simpl; [eauto | lia].
Qed.

End ValidationFacts.

(** *** The store *)

Section StoreFacts.
Import Py database.

Lemma matches_lookup (filter_dict d : dict) k v :
  matches filter_dict d = true -> filter_dict !! k = Some v -> d !! k = Some v.
Proof.
  unfold matches. rewrite forallb_forall. intros H Hk.
  apply elem_of_map_to_list, list_elem_of_In in Hk.
  specialize (H _ Hk). simpl in H.
  destruct (d !! k) as [v'|]; [|discriminate].
  now apply value_eqb_eq in H as ->.
Qed.

End StoreFacts.

(** *** Running the handlers *)

Section HandlerFacts.
Import Py Pydantic database Http main Terms.

Lemma create_run collection_name data w :
  try_except_500
    (inserted_id <- call_create_document collection_name data ;; ret (OkId inserted_id)) w
  = (match fault (db w) with
     | Some m => HTTPException 500 m
     | None => OkId (oid_hex (next_oid (db w)))
     end,
     after_insert collection_name data w).
Proof.
  unfold try_except_500, bind, call_create_document, create_document, after_insert, ret.
  destruct (fault (db w)); reflexivity.
Qed.

Lemma list_run repr_other collection_name filter_dict limit w :
  try_except_500
    (docs <- call_get_documents collection_name filter_dict limit ;;
     ret (OkItems (stringify_ids repr_other docs))) w
  = (match fault (db w) with
     | Some m => HTTPException 500 m
     | None =>
         OkItems (stringify_ids repr_other
                    (take (Z.to_nat limit)
                       (List.filter (matches filter_dict)
                          (documents (db w) collection_name))))
     end,
     World (db w) (clock w) (calls w ++ [Find collection_name filter_dict limit])%list).
Proof.
  unfold try_except_500, bind, call_get_documents, get_documents, ret.
  destruct (fault (db w)); reflexivity.
Qed.

Lemma ExpenseIn_dump_date e :
  get (ExpenseIn.model_dump e) "date" = of_opt_str (ExpenseIn.date e).
Proof. reflexivity. Qed.

Lemma add_expense_run lax_float body e w :
  ExpenseIn.validate lax_float body = inr e ->
  add_expense lax_float body w
  = (match fault (db w) with
     | Some m => HTTPException 500 m
     | None => OkId (oid_hex (next_oid (db w)))
     end,
     after_insert "expense"
       (<["date" := ingested_date (ExpenseIn.date e) w]> (ExpenseIn.model_dump e)) w).
Proof.
  intros He. unfold add_expense, endpoint. rewrite He.
  rewrite <- create_run. unfold try_except_500, bind at 1, py_or, ingested_date.
  rewrite ExpenseIn_dump_date.
  destruct (truthy (of_opt_str (ExpenseIn.date e))); reflexivity.
Qed.

Lemma add_budget_run lax_float body b w :
  BudgetIn.validate lax_float body = inr b ->
  add_budget lax_float body w
  = (match fault (db w) with
     | Some m => HTTPException 500 m
     | None => OkId (oid_hex (next_oid (db w)))
     end,
     after_insert "budget" (BudgetIn.model_dump b) w).
Proof.
  intros Hb. unfold add_budget, endpoint. rewrite Hb. apply create_run.
Qed.

Lemma add_goal_run lax_float body g w :
  GoalIn.validate lax_float body = inr g ->
  add_goal lax_float body w
  = (match fault (db w) with
     | Some m => HTTPException 500 m
     | None => OkId (oid_hex (next_oid (db w)))
     end,
     after_insert "goal" (GoalIn.model_dump g) w).
Proof.
  intros Hg. unfold add_goal, endpoint. rewrite Hg. apply create_run.
Qed.

Lemma after_insert_stores collection_name data w :
  fault (db w) = None ->
  stores collection_name w (after_insert collection_name data w)
    (<["_id" := PObjectId (next_oid (db w))]> data).
Proof.
  intros Hf. unfold stores, after_insert. rewrite Hf. simpl.
  unfold documents at 1. simpl. now rewrite lookup_insert_eq.
Qed.

Lemma after_insert_down collection_name data w m :
  fault (db w) = Some m -> db (after_insert collection_name data w) = db w.
Proof. intros Hf. unfold after_insert. now rewrite Hf. Qed.

Lemma after_insert_called collection_name data w :
  called w (after_insert collection_name data w) [Insert collection_name data].
Proof. reflexivity. Qed.

(** A rejected request leaves the world as it was. *)
Lemma endpoint_rejected {A} (params : validated A) handler errors w :
  params = inl errors -> endpoint params handler w = (RequestValidationError errors, w).
Proof. intros ->. reflexivity. Qed.

(** What validation of each model tells about the record it builds. *)
Lemma ExpenseIn_validate_inr lax_float body e :
  ExpenseIn.validate lax_float body = inr e ->
  exists kvs, body = PDict kvs /\
    let input := dict_of_pairs kvs in
    required (float_ lax_float) "amount" input = inr (ExpenseIn.amount e) /\
    defaulted str_ "USD" "currency" input = inr (ExpenseIn.currency e) /\
    defaulted (optional str_) None "date" input = inr (ExpenseIn.date e) /\
    defaulted (optional str_) None "merchant" input = inr (ExpenseIn.merchant e) /\
    defaulted (optional str_) None "note" input = inr (ExpenseIn.note e) /\
    defaulted (optional str_) None "category" input = inr (ExpenseIn.category e) /\
    defaulted (optional str_) None "account" input = inr (ExpenseIn.account e) /\
    defaulted str_ "debit" "type" input = inr (ExpenseIn.type e).
Proof.
  intros H. apply model_inr in H as (kvs & -> & H). exists kvs. split; [reflexivity|].
  unfold ExpenseIn.fields in H.
  repeat (apply ap_inr in H as (? & ? & H & ? & ->)).
  injection H as <-. simpl. tauto.
Qed.

Lemma BudgetIn_validate_inr lax_float body b :
  BudgetIn.validate lax_float body = inr b ->
  exists kvs, body = PDict kvs /\
    let input := dict_of_pairs kvs in
    required str_ "category" input = inr (BudgetIn.category b) /\
    required (float_ lax_float) "amount" input = inr (BudgetIn.amount b) /\
    defaulted (optional str_) None "month" input = inr (BudgetIn.month b).
Proof.
  intros H. apply model_inr in H as (kvs & -> & H). exists kvs. split; [reflexivity|].
  unfold BudgetIn.fields in H.
  repeat (apply ap_inr in H as (? & ? & H & ? & ->)).
  injection H as <-. simpl. tauto.
Qed.

Lemma GoalIn_validate_inr lax_float body g :
  GoalIn.validate lax_float body = inr g ->
  exists kvs, body = PDict kvs /\
    let input := dict_of_pairs kvs in
    required str_ "name" input = inr (GoalIn.name g) /\
    required (float_ lax_float) "target_amount" input = inr (GoalIn.target_amount g) /\
    defaulted (fun x => match float_ lax_float x with
                        | inl e => inl e
                        | inr f => inr (PFloat f)
                        end)
              (PInt 0) "current_amount" input = inr (GoalIn.current_amount g) /\
    defaulted (optional str_) None "deadline" input = inr (GoalIn.deadline g).
Proof.
  intros H. apply model_inr in H as (kvs & -> & H). exists kvs. split; [reflexivity|].
  unfold GoalIn.fields in H.
  repeat (apply ap_inr in H as (? & ? & H & ? & ->)).
  injection H as <-. simpl. tauto.
Qed.

End HandlerFacts.

(** *** Amounts and types at the create handlers *)

Section CreateChecks.
Import Py Pydantic database Http main Terms Samples.

(** C1, as the code has it: the create handlers validate with [BudgetIn]
    and [GoalIn], which put no bound on the amount. A budget whose amount
    is [<= 0] and a goal whose target amount is [<= 0] pass validation: the
    handler calls the facade, and on a reachable store the request is
    answered with 200 and the document is stored with that amount. *)
Theorem nonpositive_amount_is_stored :
  (forall lax_float body b w,
      BudgetIn.validate lax_float body = inr b ->
      float_le0 (BudgetIn.amount b) = true ->
      fault (db w) = None ->
      let rw := add_budget lax_float body w in
      status rw.1 = 200%Z /\
      (exists data, called w rw.2 [Insert "budget" data]) /\
      (exists d, stores "budget" w rw.2 d /\
                 d !! "amount" = Some (PFloat (BudgetIn.amount b))))
  /\
  (forall lax_float body g w,
      GoalIn.validate lax_float body = inr g ->
      float_le0 (GoalIn.target_amount g) = true ->
      fault (db w) = None ->
      let rw := add_goal lax_float body w in
      status rw.1 = 200%Z /\
      (exists data, called w rw.2 [Insert "goal" data]) /\
      (exists d, stores "goal" w rw.2 d /\
                 d !! "target_amount" = Some (PFloat (GoalIn.target_amount g)))).
Proof.
  split.
  - intros lax_float body b w Hv Hle Hf rw. subst rw.
    rewrite (add_budget_run _ _ _ _ Hv), Hf. simpl.
    split; [reflexivity|]. split.
    + eexists. apply after_insert_called.
    + eexists. split; [apply after_insert_stores, Hf | reflexivity].
  - intros lax_float body g w Hv Hle Hf rw. subst rw.
    rewrite (add_goal_run _ _ _ _ Hv), Hf. simpl.
    split; [reflexivity|]. split.
    + eexists. apply after_insert_called.
    + eexists. split; [apply after_insert_stores, Hf | reflexivity].
Qed.

Lemma nonpositive_amount_is_stored_witness :
  (float_le0 minus_five = true /\
   status (add_budget strict_float negative_budget empty_world).1 = 200%Z /\
   exists d, stores "budget" empty_world
               (add_budget strict_float negative_budget empty_world).2 d /\
             d !! "amount" = Some (PFloat minus_five))
  /\
  (float_le0 float_zero = true /\
   status (add_goal strict_float zero_goal empty_world).1 = 200%Z /\
   exists d, stores "goal" empty_world
               (add_goal strict_float zero_goal empty_world).2 d /\
             d !! "target_amount" = Some (PFloat float_zero)).
Proof.
  destruct nonpositive_amount_is_stored as [Hb Hg]. split.
  - split; [reflexivity|].
    destruct (Hb strict_float negative_budget
                 (BudgetIn.Build "food" minus_five None) empty_world)
      as (Hs & _ & Hd); [reflexivity | reflexivity | reflexivity |].
    exact (conj Hs Hd).
  - split; [reflexivity|].
    destruct (Hg strict_float zero_goal
                 (GoalIn.Build "car" float_zero (PInt 0) None) empty_world)
      as (Hs & _ & Hd); [reflexivity | reflexivity | reflexivity |].
    exact (conj Hs Hd).
Defined.

(** C2, as the code has it: [ExpenseIn] declares [type] as a plain string.
    An expense whose type is a string other than "debit" and "credit"
    passes validation: the handler calls the facade, and on a reachable
    store the request is answered with 200 and the expense is stored with
    that type. *)
Theorem unlisted_type_is_stored lax_float kvs e s w :
  ExpenseIn.validate lax_float (PDict kvs) = inr e ->
  dict_of_pairs kvs !! "type" = Some (PStr s) ->
  s <> "debit" -> s <> "credit" ->
  fault (db w) = None ->
  let rw := add_expense lax_float (PDict kvs) w in
  status rw.1 = 200%Z /\
  (exists data, called w rw.2 [Insert "expense" data]) /\
  (exists d, stores "expense" w rw.2 d /\ d !! "type" = Some (PStr s)).
Proof.
  intros Hv Ht Hd Hc Hf rw. subst rw.
  rewrite (add_expense_run _ _ _ _ Hv), Hf. simpl.
  apply ExpenseIn_validate_inr in Hv as (kvs' & [= <-] & Hv). simpl in Hv.
  destruct Hv as (_ & _ & _ & _ & _ & _ & _ & Hty).
  pose proof (defaulted_present _ _ _ _ _ _ Hty Ht) as Hs. injection Hs as Hs.
  split; [reflexivity|]. split.
  - eexists. apply after_insert_called.
  - eexists. split; [apply after_insert_stores, Hf|]. now rewrite Hs.
Qed.

Lemma unlisted_type_is_stored_witness :
  status (add_expense strict_float refund empty_world).1 = 200%Z /\
  (exists data, called empty_world (add_expense strict_float refund empty_world).2
                  [Insert "expense" data]) /\
  (exists d, stores "expense" empty_world (add_expense strict_float refund empty_world).2 d
             /\ d !! "type" = Some (PStr "refund")).
Proof.
  apply (unlisted_type_is_stored strict_float
           [("amount", PFloat twelve); ("type", PStr "refund")]
           (ExpenseIn.Build twelve "USD" None None None None None "refund")
           "refund" empty_world);
    [reflexivity | reflexivity | discriminate | discriminate | reflexivity].
Defined.

End CreateChecks.

(** *** The date of an expense *)

Section ExpenseDate.
Import Py Pydantic database Http main Terms Samples.

Lemma optional_str_inr v o : optional str_ v = inr o -> of_opt_str o = v.
Proof. destruct v; simpl; try discriminate; now intros [= <-]. Qed.

(** The date of the validated record is the date of the input. *)
Lemma ExpenseIn_date_of_input lax_float kvs e :
  ExpenseIn.validate lax_float (PDict kvs) = inr e ->
  of_opt_str (ExpenseIn.date e) = get (dict_of_pairs kvs) "date".
Proof.
  intros Hv. apply ExpenseIn_validate_inr in Hv as (kvs' & [= <-] & Hv). simpl in Hv.
  destruct Hv as (_ & _ & Hd & _). unfold get.
  destruct (dict_of_pairs kvs !! "date") as [v|] eqn:Hl; simpl.
  - apply optional_str_inr. apply (defaulted_present _ _ _ _ _ _ Hd Hl).
  - now rewrite (defaulted_absent _ _ _ _ _ Hd Hl).
Qed.

(** On a reachable store [add_expense] stores the validated record with
    the date [ingested_date] gives. *)
Lemma add_expense_stores_date lax_float kvs e w :
  ExpenseIn.validate lax_float (PDict kvs) = inr e ->
  fault (db w) = None ->
  exists d, stores "expense" w (add_expense lax_float (PDict kvs) w).2 d /\
            d !! "date" = Some (ingested_date (ExpenseIn.date e) w).
Proof.
  intros Hv Hf. rewrite (add_expense_run _ _ _ _ Hv). simpl.
  eexists. split; [apply after_insert_stores, Hf | reflexivity].
Qed.

(** C3, as stated, fails: the expense [{"amount": 12.0, "date": ""}]
    supplies a date, and what is stored is the clock reading, not the
    supplied empty string. *)
Lemma supplied_date_not_always_kept :
  ~ (forall lax_float kvs e w d,
        ExpenseIn.validate lax_float (PDict kvs) = inr e ->
        fault (db w) = None ->
        stores "expense" w (add_expense lax_float (PDict kvs) w).2 d ->
        match dict_of_pairs kvs !! "date" with
        | None => d !! "date" = Some (PStr (clock w))
        | Some supplied => d !! "date" = Some supplied
        end).
Proof.
  intros H.
  destruct (add_expense_stores_date strict_float
              [("amount", PFloat twelve); ("date", PStr "")]
              (ExpenseIn.Build twelve "USD" (Some "") None None None None "debit")
              empty_world eq_refl eq_refl) as (d & Hs & Hd).
  specialize (H strict_float
                [("amount", PFloat twelve); ("date", PStr "")]
                (ExpenseIn.Build twelve "USD" (Some "") None None None None "debit")
                empty_world d eq_refl eq_refl Hs).
  change (d !! "date" = Some (PStr "")) in H.
  rewrite Hd in H. discriminate H.
Qed.

(** C3, amended: when the date field is absent the stored document's date
    is the current UTC timestamp, and when a non-empty date is supplied the
    supplied value is stored unchanged. *)
Theorem expense_date_default lax_float kvs e w :
  ExpenseIn.validate lax_float (PDict kvs) = inr e ->
  fault (db w) = None ->
  exists d, stores "expense" w (add_expense lax_float (PDict kvs) w).2 d /\
    (dict_of_pairs kvs !! "date" = None -> d !! "date" = Some (PStr (clock w))) /\
    (forall s, dict_of_pairs kvs !! "date" = Some (PStr s) -> s <> "" ->
               d !! "date" = Some (PStr s)).
Proof.
  intros Hv Hf.
  destruct (add_expense_stores_date _ _ _ _ Hv Hf) as (d & Hs & Hd).
  exists d. split; [exact Hs|].
  rewrite Hd. unfold ingested_date.
  rewrite (ExpenseIn_date_of_input _ _ _ Hv). unfold get. split.
  - intros ->. reflexivity.
  - intros s -> Hne. simpl. destruct (String.eqb_spec s ""); [contradiction | reflexivity].
Qed.

Lemma expense_date_default_witness :
  (exists d, stores "expense" empty_world (add_expense strict_float lunch empty_world).2 d /\
             d !! "date" = Some (PStr noon)) /\
  (exists d, stores "expense" empty_world
               (add_expense strict_float lunch_dated empty_world).2 d /\
             d !! "date" = Some (PStr "2024-04-30")).
Proof.
  split.
  - destruct (expense_date_default strict_float
                [("amount", PFloat twelve); ("category", PStr "food")]
                (ExpenseIn.Build twelve "USD" None None None (Some "food") None "debit")
                empty_world eq_refl eq_refl) as (d & Hs & Habsent & _).
    exists d. split; [exact Hs | exact (Habsent eq_refl)].
  - destruct (expense_date_default strict_float
                [("amount", PFloat twelve); ("date", PStr "2024-04-30")]
                (ExpenseIn.Build twelve "USD" (Some "2024-04-30") None None None None
                   "debit")
                empty_world eq_refl eq_refl) as (d & Hs & _ & Hgiven).
    exists d. split; [exact Hs|]. apply Hgiven; [reflexivity | discriminate].
Defined.

(** C10: [add_expense] replaces every falsy date -- an absent one, [null],
    and the empty string alike -- by the current UTC timestamp, so an
    expense created with [date = ""] is stored with the clock reading. *)
Theorem falsy_date_is_replaced lax_float kvs e w :
  ExpenseIn.validate lax_float (PDict kvs) = inr e ->
  fault (db w) = None ->
  truthy (get (dict_of_pairs kvs) "date") = false ->
  exists d, stores "expense" w (add_expense lax_float (PDict kvs) w).2 d /\
            d !! "date" = Some (PStr (clock w)).
Proof.
  intros Hv Hf Hfalsy.
  destruct (add_expense_stores_date _ _ _ _ Hv Hf) as (d & Hs & Hd).
  exists d. split; [exact Hs|].
  rewrite Hd. unfold ingested_date.
  now rewrite (ExpenseIn_date_of_input _ _ _ Hv), Hfalsy.
Qed.

Lemma falsy_date_is_replaced_witness :
  get (dict_of_pairs [("amount", PFloat twelve); ("date", PStr "")]) "date" = PStr "" /\
  exists d, stores "expense" empty_world
              (add_expense strict_float lunch_undated empty_world).2 d /\
            d !! "date" = Some (PStr noon).
Proof.
  split; [reflexivity|].
  exact (falsy_date_is_replaced strict_float
           [("amount", PFloat twelve); ("date", PStr "")]
           (ExpenseIn.Build twelve "USD" (Some "") None None None None "debit")
           empty_world eq_refl eq_refl eq_refl).
Defined.

End ExpenseDate.

(** *** The list handlers *)

Section ListFacts.
Import Py Pydantic database Http main Terms Samples.

Lemma narrowed_truthy field param (base : dict) :
  (let p := of_opt_str param in if truthy p then <[field := p]> base else base)
  = narrowed field param base.
Proof.
  destruct param as [c|]; simpl; [|reflexivity].
  now destruct (String.eqb c "").
Qed.

Lemma limit_reads_inr int_of_str lo hi limit n :
  limit_reads int_of_str limit n -> (lo <= 50 <= hi)%Z -> (lo <= n <= hi)%Z ->
  Query int_of_str 50 lo hi "limit" limit = inr n.
Proof.
  intros Hr Hd Hn. apply Query_inr. destruct limit; simpl in *; [tauto | exact Hr].
Qed.

Lemma limit_reads_inl int_of_str lo hi limit n :
  limit_reads int_of_str limit n -> (lo <= 50 <= hi)%Z -> (n < lo \/ hi < n)%Z ->
  exists t, Query int_of_str 50 lo hi "limit" limit
            = inl [ErrorDetails t ["query"; "limit"]].
Proof.
  intros Hr Hd Hn. destruct limit as [s|]; simpl in Hr.
  - destruct (Query_out_of_range int_of_str 50 lo hi "limit" s n Hr Hn) as (t & Ht & _).
    eauto.
  - lia.
Qed.

Lemma list_expenses_run int_of_str repr_other category limit n w :
  Query int_of_str 50 1 500 "limit" limit = inr n ->
  list_expenses int_of_str repr_other category limit w
  = find_run repr_other "expense" (expense_filter category) n w.
Proof.
  intros Hq. unfold list_expenses, endpoint. rewrite Hq.
  rewrite (narrowed_truthy "category"). apply list_run.
Qed.

Lemma list_budgets_run int_of_str repr_other month limit n w :
  Query int_of_str 50 1 200 "limit" limit = inr n ->
  list_budgets int_of_str repr_other month limit w
  = find_run repr_other "budget" (budget_filter month) n w.
Proof.
  intros Hq. unfold list_budgets, endpoint. rewrite Hq.
  rewrite (narrowed_truthy "month"). apply list_run.
Qed.

Lemma list_goals_run int_of_str repr_other limit n w :
  Query int_of_str 50 1 200 "limit" limit = inr n ->
  list_goals int_of_str repr_other limit w = find_run repr_other "goal" ∅ n w.
Proof.
  intros Hq. unfold list_goals, endpoint. rewrite Hq. apply list_run.
Qed.

End ListFacts.

(** *** The limit of a list request *)

Section Limit.
Import Py Pydantic database Http main Terms Samples.

Lemma limit_enforced_intro int_of_str lo hi limit n collection_name filter_dict
    repr_other handler w :
  (lo <= 50 <= hi)%Z ->
  limit_reads int_of_str limit n ->
  (forall m, Query int_of_str 50 lo hi "limit" limit = inr m ->
             handler = find_run repr_other collection_name filter_dict m w) ->
  (forall errors, Query int_of_str 50 lo hi "limit" limit = inl errors ->
                  handler = (RequestValidationError errors, w)) ->
  limit_enforced lo hi n collection_name w handler.
Proof.
  intros Hd Hr Hok Hbad. unfold limit_enforced.
  destruct (Z.leb_spec lo n); destruct (Z.leb_spec n hi); simpl.
  - exists filter_dict.
    rewrite (Hok n (limit_reads_inr _ _ _ _ _ Hr Hd (conj H H0))). reflexivity.
  - destruct (limit_reads_inl int_of_str lo hi limit n Hr Hd) as (t & Ht); [lia|].
    rewrite (Hbad _ Ht). simpl. unfold rejects_at. eauto.
  - destruct (limit_reads_inl int_of_str lo hi limit n Hr Hd) as (t & Ht); [lia|].
    rewrite (Hbad _ Ht). simpl. unfold rejects_at. eauto.
  - destruct (limit_reads_inl int_of_str lo hi limit n Hr Hd) as (t & Ht); [lia|].
    rewrite (Hbad _ Ht). simpl. unfold rejects_at. eauto.
Qed.

(** C4: the limit of each list endpoint is defaulted to 50 and bounded
    inclusively before the facade is reached -- 1 to 500 for expenses, 1 to
    200 for budgets and for goals. Within its bound the limit reaches
    [find] unchanged; outside, the request is answered 422 at the limit
    parameter, nothing is clamped and the facade is not called. *)
Theorem limit_bounds int_of_str repr_other category month limit n w :
  limit_reads int_of_str limit n ->
  limit_enforced 1 500 n "expense" w
    (list_expenses int_of_str repr_other category limit w) /\
  limit_enforced 1 200 n "budget" w
    (list_budgets int_of_str repr_other month limit w) /\
  limit_enforced 1 200 n "goal" w
    (list_goals int_of_str repr_other limit w).
Proof.
  intros Hr. repeat split.
  - eapply limit_enforced_intro; [lia | exact Hr | |].
    + intros m Hm. apply list_expenses_run, Hm.
    + intros errors He. unfold list_expenses. now apply endpoint_rejected.
  - eapply limit_enforced_intro; [lia | exact Hr | |].
    + intros m Hm. apply list_budgets_run, Hm.
    + intros errors He. unfold list_budgets. now apply endpoint_rejected.
  - eapply limit_enforced_intro; [lia | exact Hr | |].
    + intros m Hm. apply list_goals_run, Hm.
    + intros errors He. unfold list_goals. now apply endpoint_rejected.
Qed.

Lemma limit_bounds_witness :
  limit_reads int_of_digits (Some "501") 501 /\
  (status (list_expenses int_of_digits no_repr (Some "food") (Some "501") two_expenses).1
   = 422%Z /\
   rejects_at (list_expenses int_of_digits no_repr (Some "food") (Some "501")
                 two_expenses).1 ["query"; "limit"] /\
   (list_expenses int_of_digits no_repr (Some "food") (Some "501") two_expenses).2
   = two_expenses) /\
  limit_reads int_of_digits (Some "500") 500 /\
  (exists filter_dict,
      called two_expenses
        (list_expenses int_of_digits no_repr (Some "food") (Some "500") two_expenses).2
        [Find "expense" filter_dict 500]).
Proof.
  split; [reflexivity|].
  split; [exact (proj1 (limit_bounds int_of_digits no_repr (Some "food") None
                          (Some "501") 501 two_expenses eq_refl))|].
  split; [reflexivity|].
  exact (proj1 (limit_bounds int_of_digits no_repr (Some "food") None
                  (Some "500") 500 two_expenses eq_refl)).
Defined.

End Limit.

(** *** Filters *)

Section Filters.
Import Py Pydantic database Http main Terms Samples.

Lemma expense_filter_type category :
  expense_filter category !! "type" = Some (PStr "debit").
Proof.
  unfold expense_filter, narrowed. destruct category as [c|]; [|reflexivity].
  destruct (String.eqb c ""); reflexivity.
Qed.

Lemma expense_filter_category category v :
  expense_filter category !! "category" = Some v <->
  exists c, category = Some c /\ c <> "" /\ v = PStr c.
Proof.
  unfold expense_filter, narrowed. destruct category as [c|].
  - destruct (String.eqb_spec c "") as [->|Hc].
    + split; [discriminate | intros (c & [= <-] & Hc & _); contradiction].
    + rewrite lookup_insert_eq. split.
      * intros [= <-]. eauto.
      * intros (c' & [= <-] & _ & ->). reflexivity.
  - split; [discriminate | intros (c & [=] & _)].
Qed.

Lemma stringify_ids_lookup repr_other docs item k :
  item ∈ stringify_ids repr_other docs -> k <> "_id" ->
  exists d, d ∈ docs /\ item !! k = d !! k.
Proof.
  unfold stringify_ids. intros Hi Hk.
  apply list_elem_of_fmap in Hi as (d & -> & Hd).
  exists d. split; [exact Hd|]. now rewrite lookup_insert_ne.
Qed.

Lemma find_run_items repr_other collection_name filter_dict n w items :
  (find_run repr_other collection_name filter_dict n w).1 = OkItems items ->
  exists docs, items = stringify_ids repr_other docs /\
               Forall (fun d => matches filter_dict d = true) docs.
Proof.
  unfold find_run. simpl. destruct (fault (db w)); [discriminate|].
  intros [= <-]. eexists. split; [reflexivity|].
  apply Forall_forall. intros d Hd.
  apply elem_of_take in Hd as (i & Hd & _).
  apply list_elem_of_lookup_2, list_elem_of_In, filter_In in Hd. tauto.
Qed.

(** C5, as stated, fails: a category parameter that is provided but empty
    ([GET /api/expenses?category=]) adds no category equality to the
    filter. *)
Lemma provided_category_not_always_filtered :
  ~ (forall int_of_str repr_other category limit w filter_dict n,
        called w (list_expenses int_of_str repr_other category limit w).2
          [Find "expense" filter_dict n] ->
        filter_dict !! "type" = Some (PStr "debit") /\
        (forall c, category = Some c <-> filter_dict !! "category" = Some (PStr c))).
Proof.
  intros H.
  destruct (H int_of_digits no_repr (Some "") None empty_world
              {["type" := PStr "debit"]} 50%Z eq_refl) as [_ Hc].
  destruct (Hc "") as [Hc' _]. specialize (Hc' eq_refl). discriminate Hc'.
Qed.

(** C5, amended: the filter an expense list request passes to the store
    always contains the equality type = "debit", and contains an exact-match
    equality on category exactly when a non-empty category parameter is
    provided; so listing with category "food" returns only documents with
    category "food" and type "debit". *)
Theorem expense_filter_contents int_of_str repr_other category limit n w :
  limit_reads int_of_str limit n -> (1 <= n <= 500)%Z ->
  let rw := list_expenses int_of_str repr_other category limit w in
  (exists filter_dict,
      called w rw.2 [Find "expense" filter_dict n] /\
      filter_dict !! "type" = Some (PStr "debit") /\
      (forall v, filter_dict !! "category" = Some v <->
                 exists c, category = Some c /\ c <> "" /\ v = PStr c)) /\
  (forall c items,
      category = Some c -> c <> "" -> rw.1 = OkItems items ->
      Forall (fun d => d !! "category" = Some (PStr c) /\
                       d !! "type" = Some (PStr "debit")) items).
Proof.
  intros Hr Hn rw. subst rw.
  rewrite (list_expenses_run _ _ _ _ _ _ (limit_reads_inr _ 1 500 _ _ Hr ltac:(lia) Hn)).
  split.
  - exists (expense_filter category).
    split; [reflexivity|]. split; [apply expense_filter_type|].
    apply expense_filter_category.
  - intros c items -> Hc Hitems.
    apply find_run_items in Hitems as (docs & -> & Hdocs).
    apply Forall_forall. intros item Hi.
    rewrite Forall_forall in Hdocs. split.
    + destruct (stringify_ids_lookup _ _ _ "category" Hi) as (d & Hd & ->);
        [discriminate|].
      apply (matches_lookup _ _ _ _ (Hdocs d Hd)).
      apply expense_filter_category. eauto.
    + destruct (stringify_ids_lookup _ _ _ "type" Hi) as (d & Hd & ->);
        [discriminate|].
      apply (matches_lookup _ _ _ _ (Hdocs d Hd)), expense_filter_type.
Qed.

(** The filter example of the specification: of a "food" and a "travel"
    expense, listing with category "food" returns exactly the first. *)
Example list_food_returns_lunch :
  (list_expenses int_of_digits no_repr (Some "food") None two_expenses).1
  = OkItems
      [<["_id" := PStr "000000000000000000000000"]>
         (<["date" := PStr noon]>
            (ExpenseIn.model_dump
               (ExpenseIn.Build twelve "USD" None None None (Some "food") None "debit")))].
Proof. vm_compute. reflexivity. Qed.

Lemma expense_filter_contents_witness :
  limit_reads int_of_digits None 50 /\ (1 <= 50 <= 500)%Z /\
  (exists filter_dict,
      called two_expenses
        (list_expenses int_of_digits no_repr (Some "food") None two_expenses).2
        [Find "expense" filter_dict 50] /\
      filter_dict !! "type" = Some (PStr "debit") /\
      filter_dict !! "category" = Some (PStr "food")) /\
  (forall items,
      (list_expenses int_of_digits no_repr (Some "food") None two_expenses).1
      = OkItems items ->
      Forall (fun d => d !! "category" = Some (PStr "food") /\
                       d !! "type" = Some (PStr "debit")) items).
Proof.
  split; [reflexivity|]. split; [lia|].
  destruct (expense_filter_contents int_of_digits no_repr (Some "food") None 50
              two_expenses eq_refl) as [(filter_dict & Hcall & Hty & Hcat) Hitems]; [lia|].
  split.
  - exists filter_dict. split; [exact Hcall|]. split; [exact Hty|].
    apply Hcat. exists "food". split; [reflexivity|]. split; [discriminate | reflexivity].
  - intros items Hi. apply (Hitems "food" items eq_refl); [discriminate | exact Hi].
Defined.

Lemma matches_debit (d : dict) :
  matches {["type" := PStr "debit"]} d = true <-> d !! "type" = Some (PStr "debit").
Proof.
  split.
  - intros H. apply (matches_lookup _ _ _ _ H). apply lookup_singleton_eq.
  - intros H. unfold matches. rewrite map_to_list_singleton. simpl. now rewrite H.
Qed.

(** C9: a narrowing parameter that is present but empty is treated as
    absent. Listing expenses with category "" does what listing without a
    category does: the filter is type = "debit" alone, passed by exactly the
    documents of type "debit", whatever their category. Listing budgets with
    month "" does what listing without a month does, with the empty
    filter. *)
Theorem empty_narrowing_is_absent int_of_str repr_other limit n w :
  limit_reads int_of_str limit n ->
  (list_expenses int_of_str repr_other (Some "") limit w
   = list_expenses int_of_str repr_other None limit w /\
   list_budgets int_of_str repr_other (Some "") limit w
   = list_budgets int_of_str repr_other None limit w) /\
  ((1 <= n <= 500)%Z ->
   list_expenses int_of_str repr_other (Some "") limit w
   = find_run repr_other "expense" {["type" := PStr "debit"]} n w) /\
  ((1 <= n <= 200)%Z ->
   list_budgets int_of_str repr_other (Some "") limit w
   = find_run repr_other "budget" ∅ n w) /\
  (forall d : dict, matches {["type" := PStr "debit"]} d = true <->
                    d !! "type" = Some (PStr "debit")).
Proof.
  intros Hr. split; [split; reflexivity|]. split; [|split].
  - intros Hn. apply list_expenses_run, limit_reads_inr; [exact Hr | lia | exact Hn].
  - intros Hn. apply list_budgets_run, limit_reads_inr; [exact Hr | lia | exact Hn].
  - apply matches_debit.
Qed.

Lemma empty_narrowing_is_absent_witness :
  limit_reads int_of_digits None 50 /\
  list_expenses int_of_digits no_repr (Some "") None two_expenses
  = find_run no_repr "expense" {["type" := PStr "debit"]} 50 two_expenses /\
  list_budgets int_of_digits no_repr (Some "") None two_expenses
  = find_run no_repr "budget" ∅ 50 two_expenses.
Proof.
  split; [reflexivity|].
  destruct (empty_narrowing_is_absent int_of_digits no_repr None 50 two_expenses
              eq_refl) as (_ & He & Hb & _).
  split; [apply He | apply Hb]; lia.
Defined.

End Filters.

(** *** Identifiers in list responses *)

Section Identifiers.
Import Py Pydantic database Http main Terms Samples Outcomes.

Lemma filter_sublist {A} (f : A -> bool) (l : list A) : List.filter f l `sublist_of` l.
Proof.
  induction l as [|x l IH]; simpl; [constructor|].
  destruct (f x); now constructor.
Qed.

Lemma find_run_view repr_other collection_name filter_dict n w items :
  (find_run repr_other collection_name filter_dict n w).1 = OkItems items ->
  exists docs, items = stringify_ids repr_other docs /\
               docs `sublist_of` documents (db w) collection_name /\
               Forall (fun d => matches filter_dict d = true) docs /\
               length docs <= Z.to_nat n.
Proof.
  unfold find_run. simpl. destruct (fault (db w)); [discriminate|].
  intros [= <-]. eexists. split; [reflexivity|]. repeat split.
  - etransitivity; [apply sublist_take | apply filter_sublist].
  - apply Forall_forall. intros d Hd.
    apply elem_of_take in Hd as (i & Hd & _).
    apply list_elem_of_lookup_2, list_elem_of_In, filter_In in Hd. tauto.
  - rewrite length_take. lia.
Qed.

Lemma stringify_ids_same repr_other docs :
  Forall2 (fun item d => same_but_id item d /\
                         item !! "_id" = Some (PStr (str repr_other (get d "_id"))))
          (stringify_ids repr_other docs) docs.
Proof.
  unfold stringify_ids. induction docs as [|d docs IH]; simpl; constructor; [|exact IH].
  split.
  - intros k Hk. now rewrite lookup_insert_ne.
  - apply lookup_insert_eq.
Qed.

Lemma endpoint_items {A} (params : validated A) handler w items :
  (endpoint params handler w).1 = OkItems items ->
  exists a, params = inr a /\ (handler a w).1 = OkItems items.
Proof. unfold endpoint. destruct params as [errors|a]; [discriminate | eauto]. Qed.





End Identifiers.

(** *** Storage failures *)

Section Failures.
Import Py Pydantic database Http main Terms Samples.

Lemma after_insert_surfaces m collection_name data w :
  fault (db w) = Some m ->
  surfaces m w (HTTPException 500 m, after_insert collection_name data w).
Proof.
  intros Hf. split; [reflexivity|]. split.
  - eexists. apply after_insert_called.
  - apply (after_insert_down _ _ _ _ Hf).
Qed.

Lemma find_run_surfaces m repr_other collection_name filter_dict n w :
  fault (db w) = Some m ->
  surfaces m w (find_run repr_other collection_name filter_dict n w).
Proof.
  intros Hf. unfold find_run. rewrite Hf. split; [reflexivity|]. split.
  - eexists. reflexivity.
  - reflexivity.
Qed.

(** The one place that cuts an error text is the health check. *)
Lemma test_database_truncates name e getenv :
  test_database (Some (Handle name (inl e))) getenv !! "database"
  = Some (PStr ("⚠️  Connected but Error: " ++ slice_to 50 (exception_str e))).
Proof.
  unfold test_database. cbv zeta. simpl list_collection_names.
  rewrite !lookup_insert_ne by discriminate. apply lookup_insert_eq.
Qed.

Lemma long_text_length n : String.length (long_text n) = n.
Proof. induction n as [|n IH]; simpl; congruence. Qed.

(** C8, as stated, fails: the detail of the 500 response is the whole error
    text. With the store refusing connections the detail is the 92
    characters of the error, not their first 50 (the truncation of the
    health check), and no length bounds the detail of every failure. *)
Lemma storage_error_detail_not_truncated :
  ((add_expense strict_float lunch down_world).1 = HTTPException 500 refused /\
   String.length refused = 92%nat /\
   refused <> slice_to 50 refused)
  /\
  ~ (exists bound : nat,
        forall lax_float body e w m detail,
          ExpenseIn.validate lax_float body = inr e ->
          fault (db w) = Some m ->
          (add_expense lax_float body w).1 = HTTPException 500 detail ->
          String.length detail <= bound).
Proof.
  split.
  - split; [reflexivity|]. split; [reflexivity | discriminate].
  - intros (bound & H).
    specialize (H strict_float lunch
                  (ExpenseIn.Build twelve "USD" None None None (Some "food") None "debit")
                  (World (Store (Some (long_text (S bound))) ∅ 0) noon [])
                  (long_text (S bound)) (long_text (S bound)) eq_refl eq_refl eq_refl).
    rewrite long_text_length in H. lia.
Qed.

(** C8, amended: every storage failure raised inside a create or list
    handler surfaces as a server-side error response, status 500, carrying
    the description of the error in full; the handler has called the facade
    once and does not retry. *)
Theorem storage_failure_surfaces lax_float int_of_str repr_other w m :
  fault (db w) = Some m ->
  (forall body e, ExpenseIn.validate lax_float body = inr e ->
                  surfaces m w (add_expense lax_float body w)) /\
  (forall body b, BudgetIn.validate lax_float body = inr b ->
                  surfaces m w (add_budget lax_float body w)) /\
  (forall body g, GoalIn.validate lax_float body = inr g ->
                  surfaces m w (add_goal lax_float body w)) /\
  (forall category limit n,
      limit_reads int_of_str limit n -> (1 <= n <= 500)%Z ->
      surfaces m w (list_expenses int_of_str repr_other category limit w)) /\
  (forall month limit n,
      limit_reads int_of_str limit n -> (1 <= n <= 200)%Z ->
      surfaces m w (list_budgets int_of_str repr_other month limit w)) /\
  (forall limit n,
      limit_reads int_of_str limit n -> (1 <= n <= 200)%Z ->
      surfaces m w (list_goals int_of_str repr_other limit w)).
Proof.
  intros Hf. repeat apply conj.
  - intros body e Hv. rewrite (add_expense_run _ _ _ _ Hv), Hf.
    now apply after_insert_surfaces.
  - intros body b Hv. rewrite (add_budget_run _ _ _ _ Hv), Hf.
    now apply after_insert_surfaces.
  - intros body g Hv. rewrite (add_goal_run _ _ _ _ Hv), Hf.
    now apply after_insert_surfaces.
  - intros category limit n Hr Hn.
    rewrite (list_expenses_run _ _ _ _ n); [now apply find_run_surfaces|].
    apply limit_reads_inr; [exact Hr | lia | exact Hn].
  - intros month limit n Hr Hn.
    rewrite (list_budgets_run _ _ _ _ n); [now apply find_run_surfaces|].
    apply limit_reads_inr; [exact Hr | lia | exact Hn].
  - intros limit n Hr Hn.
    rewrite (list_goals_run _ _ _ n); [now apply find_run_surfaces|].
    apply limit_reads_inr; [exact Hr | lia | exact Hn].
Qed.

Lemma storage_failure_surfaces_witness :
  fault (db down_world) = Some refused /\
  surfaces refused down_world (add_expense strict_float lunch down_world) /\
  surfaces refused down_world
    (list_expenses int_of_digits no_repr (Some "food") None down_world).
Proof.
  split; [reflexivity|].
  destruct (storage_failure_surfaces strict_float int_of_digits no_repr down_world
              refused eq_refl) as (Hadd & _ & _ & Hlist & _).
  split.
  - exact (Hadd lunch
             (ExpenseIn.Build twelve "USD" None None None (Some "food") None "debit")
             eq_refl).
  - apply (Hlist (Some "food") None 50%Z); [reflexivity | lia].
Defined.

End Failures.

(** *** Defaults of absent fields *)

Section Defaults.
Import Py Pydantic database Http main Terms Samples.

(** C6: absent optional fields of a create input resolve to their defaults
    in the normalized record -- currency to "USD", type to "debit",
    current_amount to 0 -- while merchant, note, category, account, month
    and deadline remain unset. *)
Theorem absent_fields_take_defaults lax_float kvs :
  let input := dict_of_pairs kvs in
  (forall e, ExpenseIn.validate lax_float (PDict kvs) = inr e ->
     (input !! "currency" = None -> ExpenseIn.currency e = "USD") /\
     (input !! "type" = None -> ExpenseIn.type e = "debit") /\
     (input !! "merchant" = None -> ExpenseIn.merchant e = None) /\
     (input !! "note" = None -> ExpenseIn.note e = None) /\
     (input !! "category" = None -> ExpenseIn.category e = None) /\
     (input !! "account" = None -> ExpenseIn.account e = None)) /\
  (forall b, BudgetIn.validate lax_float (PDict kvs) = inr b ->
     input !! "month" = None -> BudgetIn.month b = None) /\
  (forall g, GoalIn.validate lax_float (PDict kvs) = inr g ->
     (input !! "current_amount" = None -> GoalIn.current_amount g = PInt 0) /\
     (input !! "deadline" = None -> GoalIn.deadline g = None)).
Proof.
  intros input. subst input. repeat apply conj.
  - intros e Hv. apply ExpenseIn_validate_inr in Hv as (kvs' & [= <-] & Hv).
    simpl in Hv. destruct Hv as (_ & Hcur & _ & Hmer & Hnote & Hcat & Hacc & Hty).
    repeat apply conj; intros Habsent.
    + apply (defaulted_absent _ _ _ _ _ Hcur Habsent).
    + apply (defaulted_absent _ _ _ _ _ Hty Habsent).
    + apply (defaulted_absent _ _ _ _ _ Hmer Habsent).
    + apply (defaulted_absent _ _ _ _ _ Hnote Habsent).
    + apply (defaulted_absent _ _ _ _ _ Hcat Habsent).
    + apply (defaulted_absent _ _ _ _ _ Hacc Habsent).
  - intros b Hv Habsent.
    apply BudgetIn_validate_inr in Hv as (kvs' & [= <-] & _ & _ & Hm).
    apply (defaulted_absent _ _ _ _ _ Hm Habsent).
  - intros g Hv. apply GoalIn_validate_inr in Hv as (kvs' & [= <-] & _ & _ & Hcur & Hdl).
    split; intros Habsent.
    + apply (defaulted_absent _ _ _ _ _ Hcur Habsent).
    + apply (defaulted_absent _ _ _ _ _ Hdl Habsent).
Qed.

Lemma absent_fields_take_defaults_witness :
  (exists e, ExpenseIn.validate strict_float (PDict [("amount", PFloat twelve)]) = inr e /\
             ExpenseIn.currency e = "USD" /\ ExpenseIn.type e = "debit" /\
             ExpenseIn.merchant e = None /\ ExpenseIn.note e = None /\
             ExpenseIn.category e = None /\ ExpenseIn.account e = None) /\
  (exists b, BudgetIn.validate strict_float
               (PDict [("category", PStr "food"); ("amount", PFloat twelve)]) = inr b /\
             BudgetIn.month b = None) /\
  (exists g, GoalIn.validate strict_float
               (PDict [("name", PStr "car"); ("target_amount", PFloat twelve)]) = inr g /\
             GoalIn.current_amount g = PInt 0 /\ GoalIn.deadline g = None).
Proof.
  split; [|split].
  - destruct (absent_fields_take_defaults strict_float [("amount", PFloat twelve)])
      as (He & _ & _).
    eexists. split; [reflexivity|].
    destruct (He _ eq_refl) as (H1 & H2 & H3 & H4 & H5 & H6).
    repeat apply conj; [apply H1 | apply H2 | apply H3 | apply H4 | apply H5 | apply H6];
      reflexivity.
  - destruct (absent_fields_take_defaults strict_float
                [("category", PStr "food"); ("amount", PFloat twelve)]) as (_ & Hb & _).
    eexists. split; [reflexivity|]. apply Hb; reflexivity.
  - destruct (absent_fields_take_defaults strict_float
                [("name", PStr "car"); ("target_amount", PFloat twelve)]) as (_ & _ & Hg).
    eexists. split; [reflexivity|].
    destruct (Hg _ eq_refl) as (H1 & H2). split; [apply H1 | apply H2]; reflexivity.
Defined.

End Defaults.

(** * Further properties of the handlers *)

(** *** What validation lets through *)

Section Acceptance.
Import Py Pydantic database Http main Terms Samples Outcomes.

Lemma fails_ap_l {A B} e (f : validated (A -> B)) (x : validated A) :
  fails_with e f -> fails_with e (f <*> x).
Proof.
  intros (ef & -> & He). destruct x as [ex|a]; simpl.
  - exists (ef ++ ex)%list. split; [reflexivity|]. apply elem_of_app. now left.
  - exists ef. split; [reflexivity | exact He].
Qed.

Lemma fails_ap_r {A B} e (f : validated (A -> B)) (x : validated A) :
  fails_with e x -> fails_with e (f <*> x).
Proof.
  intros (ex & -> & He). destruct f as [ef|g]; simpl.
  - exists (ef ++ ex)%list. split; [reflexivity|]. apply elem_of_app. now right.
  - exists ex. split; [reflexivity | exact He].
Qed.

Lemma required_missing {A} (v : validator A) name input :
  input !! name = None ->
  fails_with (ErrorDetails missing ["body"; name]) (required v name input).
Proof.
  intros Hn. unfold required. rewrite Hn. simpl.
  eexists. split; [reflexivity|]. apply list_elem_of_singleton. reflexivity.
Qed.

Lemma endpoint_fails {A} e (params : validated A) handler w :
  fails_with e params -> rejected_with e w (endpoint params handler w).
Proof. intros (errors & -> & He). exists errors. split; [reflexivity | exact He]. Qed.

(** A create request whose body lacks a required field -- the amount of
    an expense, the category or the amount of a budget, the name or the
    target amount of a goal -- is answered 422 with a [missing] error at
    that field, whatever else fails validation in it, and the world stays
    as it was. The 422 reply repeats the body, so this is for a body JSON
    can render: one holding a NaN or an infinity is outside the statement. *)
Theorem missing_required_field_rejected lax_float kvs w :
  renders (PDict kvs) = true ->
  let input := dict_of_pairs kvs in
  (input !! "amount" = None ->
   rejected_with (ErrorDetails missing ["body"; "amount"]) w
     (add_expense lax_float (PDict kvs) w)) /\
  (forall k, k = "category" \/ k = "amount" -> input !! k = None ->
   rejected_with (ErrorDetails missing ["body"; k]) w
     (add_budget lax_float (PDict kvs) w)) /\
  (forall k, k = "name" \/ k = "target_amount" -> input !! k = None ->
   rejected_with (ErrorDetails missing ["body"; k]) w
     (add_goal lax_float (PDict kvs) w)).
Proof.
  intros _ input. subst input. repeat apply conj.
  - intros Hn. apply endpoint_fails. unfold ExpenseIn.validate, model, ExpenseIn.fields.
    do 7 apply fails_ap_l. apply fails_ap_r, required_missing, Hn.
  - intros k [-> | ->] Hn; apply endpoint_fails;
      unfold BudgetIn.validate, model, BudgetIn.fields.
    + do 2 apply fails_ap_l. apply fails_ap_r, required_missing, Hn.
    + apply fails_ap_l. apply fails_ap_r, required_missing, Hn.
  - intros k [-> | ->] Hn; apply endpoint_fails;
      unfold GoalIn.validate, model, GoalIn.fields.
    + do 3 apply fails_ap_l. apply fails_ap_r, required_missing, Hn.
    + do 2 apply fails_ap_l. apply fails_ap_r, required_missing, Hn.
Qed.

Lemma missing_required_field_rejected_witness :
  renders (PDict [("type", PInt 3)]) = true /\
  rejected_with (ErrorDetails missing ["body"; "amount"]) two_expenses
    (add_expense strict_float (PDict [("type", PInt 3)]) two_expenses) /\
  rejected_with (ErrorDetails missing ["body"; "category"]) two_expenses
    (add_budget strict_float (PDict [("amount", PFloat twelve)]) two_expenses) /\
  rejected_with (ErrorDetails missing ["body"; "target_amount"]) two_expenses
    (add_goal strict_float (PDict []) two_expenses).
Proof.
  split; [reflexivity|]. split; [|split].
  - apply (missing_required_field_rejected strict_float [("type", PInt 3)] two_expenses);
      reflexivity.
  - apply (missing_required_field_rejected strict_float [("amount", PFloat twelve)]
             two_expenses); [reflexivity | left |]; reflexivity.
  - apply (missing_required_field_rejected strict_float [] two_expenses);
      [reflexivity | right |]; reflexivity.
Defined.

Lemma ap_inr_iff {A B} (f : validated (A -> B)) (x : validated A) :
  (exists b, f <*> x = inr b) <-> (exists g, f = inr g) /\ (exists a, x = inr a).
Proof.
  split.
  - intros (b & H). apply ap_inr in H as (g & a & -> & -> & _). eauto.
  - intros ((g & ->) & (a & ->)). simpl. eauto.
Qed.

Lemma pure_inr {A} (a : A) : (exists b, pure a = inr b) <-> True.
Proof. split; [trivial | intros _; unfold pure; eauto]. Qed.

Lemma required_float_given lax_float name input :
  (exists a, required (float_ lax_float) name input = inr a) <->
  float_given lax_float (input !! name) = true.
Proof.
  unfold required, float_given, float_.
  destruct (input !! name) as [v|]; simpl.
  - destruct v; simpl; try (destruct (lax_float _); simpl); split;
      (discriminate || eauto || (intros (a & [=])) || (intros (a & H); discriminate H)).
  - split; [intros (a & [=]) | discriminate].
Qed.

Lemma required_str_given name input :
  (exists a, required str_ name input = inr a) <-> str_given (input !! name) = true.
Proof.
  unfold required, str_given, str_.
  destruct (input !! name) as [[]|]; simpl; split;
    (discriminate || eauto || (intros (a & [=]))).
Qed.

Lemma defaulted_str_given dflt name input :
  (exists a, defaulted str_ dflt name input = inr a) <->
  str_or_absent (input !! name) = true.
Proof.
  unfold defaulted, str_or_absent, str_.
  destruct (input !! name) as [[]|]; simpl; split;
    (discriminate || eauto || (intros (a & [=]))).
Qed.

Lemma defaulted_opt_str_given name input :
  (exists a, defaulted (optional str_) None name input = inr a) <->
  opt_str_or_absent (input !! name) = true.
Proof.
  unfold defaulted, opt_str_or_absent, optional, str_.
  destruct (input !! name) as [[]|]; simpl; split;
    (discriminate || eauto || (intros (a & [=]))).
Qed.

Lemma defaulted_float_given lax_float (dflt : value) name input :
  (exists a, defaulted (fun x => match float_ lax_float x with
                                  | inl e => inl e
                                  | inr f => inr (PFloat f)
                                  end) dflt name input = inr a) <->
  float_or_absent lax_float (input !! name) = true.
Proof.
  unfold defaulted, float_or_absent, float_given, float_.
  destruct (input !! name) as [v|]; simpl.
  - destruct v; simpl; try (destruct (lax_float _); simpl); split;
      (discriminate || eauto || (intros (a & [=])) || (intros (a & H); discriminate H)).
  - split; eauto.
Qed.

Lemma model_accepts {A} (fields : dict -> validated A) body :
  (exists a, model fields body = inr a) <->
  exists kvs, body = PDict kvs /\ exists a, fields (dict_of_pairs kvs) = inr a.
Proof.
  split.
  - intros (a & H). apply model_inr in H as (kvs & -> & H). eauto.
  - intros (kvs & -> & a & H). simpl. eauto.
Qed.

(** The bodies the create handlers accept are exactly the JSON objects
    whose required fields are given with a value of their type and whose
    other fields are absent or of their type. Nothing else is checked: not
    the sign of an amount, not the value of [type], not the form of a date,
    a month or a currency. *)
Theorem accepted_bodies lax_float body :
  ((exists e, ExpenseIn.validate lax_float body = inr e) <->
   exists kvs, body = PDict kvs /\
     let input := dict_of_pairs kvs in
     float_given lax_float (input !! "amount")
     && str_or_absent (input !! "currency")
     && opt_str_or_absent (input !! "date")
     && opt_str_or_absent (input !! "merchant")
     && opt_str_or_absent (input !! "note")
     && opt_str_or_absent (input !! "category")
     && opt_str_or_absent (input !! "account")
     && str_or_absent (input !! "type") = true) /\
  ((exists b, BudgetIn.validate lax_float body = inr b) <->
   exists kvs, body = PDict kvs /\
     let input := dict_of_pairs kvs in
     str_given (input !! "category")
     && float_given lax_float (input !! "amount")
     && opt_str_or_absent (input !! "month") = true) /\
  ((exists g, GoalIn.validate lax_float body = inr g) <->
   exists kvs, body = PDict kvs /\
     let input := dict_of_pairs kvs in
     str_given (input !! "name")
     && float_given lax_float (input !! "target_amount")
     && float_or_absent lax_float (input !! "current_amount")
     && opt_str_or_absent (input !! "deadline") = true).
Proof.
  unfold ExpenseIn.validate, BudgetIn.validate, GoalIn.validate.
  rewrite !model_accepts.
  unfold ExpenseIn.fields, BudgetIn.fields, GoalIn.fields.
  repeat apply conj; apply exist_proper; intros kvs; cbv zeta;
    rewrite !ap_inr_iff, pure_inr, !andb_true_iff;
    rewrite ?required_float_given, ?required_str_given, ?defaulted_str_given,
      ?defaulted_opt_str_given, ?defaulted_float_given; tauto.
Qed.

End Acceptance.

(** *** What a create handler stores *)

Section Stored.
Import Py Pydantic database Http main Terms Samples Outcomes.

Lemma defaulted_str_value dflt name input a :
  defaulted str_ dflt name input = inr a ->
  PStr a = default (PStr dflt) (input !! name).
Proof.
  intros H. destruct (input !! name) as [v|] eqn:Hl; simpl.
  - pose proof (defaulted_present _ _ _ _ _ _ H Hl) as Hv.
    destruct v; simpl in Hv; try discriminate. congruence.
  - now rewrite (defaulted_absent _ _ _ _ _ H Hl).
Qed.

Lemma defaulted_opt_str_value name input o :
  defaulted (optional str_) None name input = inr o ->
  of_opt_str o = get input name.
Proof.
  intros H. unfold get. destruct (input !! name) as [v|] eqn:Hl; simpl.
  - apply optional_str_inr, (defaulted_present _ _ _ _ _ _ H Hl).
  - now rewrite (defaulted_absent _ _ _ _ _ H Hl).
Qed.

Lemma required_str_value name input a :
  required str_ name input = inr a -> input !! name = Some (PStr a).
Proof.
  intros H. apply required_inr in H as (v & Hl & Hv).
  destruct v; simpl in Hv; try discriminate. congruence.
Qed.

Lemma required_float_value lax_float name input a f :
  required (float_ lax_float) name input = inr a ->
  input !! name = Some (PFloat f) -> a = f.
Proof.
  intros H Hl. apply required_inr in H as (v & Hl' & Hv).
  rewrite Hl in Hl'. injection Hl' as <-. simpl in Hv. congruence.
Qed.

Lemma is_Some_lookup_keys (d : dict) (keys : list string) :
  dom d = list_to_set keys -> forall k, is_Some (d !! k) <-> k ∈ keys.
Proof.
  intros Hd k. rewrite <- elem_of_dom, Hd. apply elem_of_list_to_set.
Qed.

(** The document [add_expense] stores is the validated input and nothing
    more: it has the eight declared fields and the store's [_id], so a key
    of the body the model does not declare is never stored; the amount is
    the float the model reads from the body's amount (the body's own float
    when it gives one), the date is the body's when truthy and the clock
    reading otherwise, and the currency, the type and the four optional
    texts are those of the body, with "USD", "debit" and [None] where the
    body has none. *)
Theorem stored_expense_is_the_input lax_float kvs e w :
  ExpenseIn.validate lax_float (PDict kvs) = inr e ->
  fault (db w) = None ->
  let input := dict_of_pairs kvs in
  exists d, stores "expense" w (add_expense lax_float (PDict kvs) w).2 d /\
    (forall k, is_Some (d !! k) <->
               k ∈ ["_id"; "amount"; "currency"; "date"; "merchant"; "note";
                    "category"; "account"; "type"]) /\
    d !! "_id" = Some (PObjectId (next_oid (db w))) /\
    (exists a, read_float lax_float (input !! "amount") a /\
               d !! "amount" = Some (PFloat a)) /\
    (forall f, input !! "amount" = Some (PFloat f) -> d !! "amount" = Some (PFloat f)) /\
    d !! "date" = Some (date_for input w) /\
    d !! "currency" = Some (default (PStr "USD") (input !! "currency")) /\
    d !! "type" = Some (default (PStr "debit") (input !! "type")) /\
    (forall k, k ∈ ["merchant"; "note"; "category"; "account"] ->
               d !! k = Some (get input k)).
Proof.
  intros Hv Hf input. subst input.
  rewrite (add_expense_run _ _ _ _ Hv). simpl.
  apply ExpenseIn_validate_inr in Hv as (kvs' & [= <-] & Hv). simpl in Hv.
  destruct Hv as (Ha & Hcur & Hdate & Hmer & Hnote & Hcat & Hacc & Hty).
  eexists. split; [apply after_insert_stores, Hf|].
  split; [|repeat apply conj].
  - apply is_Some_lookup_keys. unfold ExpenseIn.model_dump.
    rewrite !dom_insert_L, dom_empty_L. set_solver.
  - reflexivity.
  - destruct (required_inr _ _ _ _ Ha) as (v & Hl & Hfl).
    exists (ExpenseIn.amount e). split; [now exists v | reflexivity].
  - intros f Hl. rewrite <- (required_float_value _ _ _ _ _ Ha Hl). reflexivity.
  - unfold date_for. rewrite <- (defaulted_opt_str_value _ _ _ Hdate). reflexivity.
  - rewrite <- (defaulted_str_value _ _ _ _ Hcur). reflexivity.
  - rewrite <- (defaulted_str_value _ _ _ _ Hty). reflexivity.
  - intros k Hk. rewrite !elem_of_cons, elem_of_nil in Hk.
    destruct Hk as [->|[->|[->|[->|[]]]]].
    + rewrite <- (defaulted_opt_str_value _ _ _ Hmer). reflexivity.
    + rewrite <- (defaulted_opt_str_value _ _ _ Hnote). reflexivity.
    + rewrite <- (defaulted_opt_str_value _ _ _ Hcat). reflexivity.
    + rewrite <- (defaulted_opt_str_value _ _ _ Hacc). reflexivity.
Qed.

Lemma stored_expense_is_the_input_witness :
  let kvs := [("amount", PFloat twelve); ("category", PStr "food");
              ("is_admin", PBool true)] in
  let input := dict_of_pairs kvs in
  exists d, stores "expense" two_expenses
              (add_expense strict_float (PDict kvs) two_expenses).2 d /\
    (forall k, is_Some (d !! k) <->
               k ∈ ["_id"; "amount"; "currency"; "date"; "merchant"; "note";
                    "category"; "account"; "type"]) /\
    d !! "_id" = Some (PObjectId (next_oid (db two_expenses))) /\
    (exists a, read_float strict_float (input !! "amount") a /\
               d !! "amount" = Some (PFloat a)) /\
    (forall f, input !! "amount" = Some (PFloat f) -> d !! "amount" = Some (PFloat f)) /\
    d !! "date" = Some (date_for input two_expenses) /\
    d !! "currency" = Some (default (PStr "USD") (input !! "currency")) /\
    d !! "type" = Some (default (PStr "debit") (input !! "type")) /\
    (forall k, k ∈ ["merchant"; "note"; "category"; "account"] ->
               d !! k = Some (get input k)).
Proof.
  apply (stored_expense_is_the_input strict_float
           [("amount", PFloat twelve); ("category", PStr "food");
            ("is_admin", PBool true)]
           (ExpenseIn.Build twelve "USD" None None None (Some "food") None "debit")
           two_expenses); reflexivity.
Defined.

(** The documents [add_budget] and [add_goal] store are the validated
    input and nothing more: the declared fields and the store's [_id]; the
    texts are the body's, each amount is the float the model reads from
    what the body gives for it; an absent month or deadline is stored as
    [None] -- no current month is computed -- and an absent current amount
    as the integer 0. *)
Theorem stored_budget_and_goal_are_the_input lax_float kvs w :
  fault (db w) = None ->
  let input := dict_of_pairs kvs in
  (forall b, BudgetIn.validate lax_float (PDict kvs) = inr b ->
     exists d, stores "budget" w (add_budget lax_float (PDict kvs) w).2 d /\
       (forall k, is_Some (d !! k) <-> k ∈ ["_id"; "category"; "amount"; "month"]) /\
       d !! "category" = input !! "category" /\
       (exists a, read_float lax_float (input !! "amount") a /\
                  d !! "amount" = Some (PFloat a)) /\
       d !! "month" = Some (get input "month")) /\
  (forall g, GoalIn.validate lax_float (PDict kvs) = inr g ->
     exists d, stores "goal" w (add_goal lax_float (PDict kvs) w).2 d /\
       (forall k, is_Some (d !! k) <->
                  k ∈ ["_id"; "name"; "target_amount"; "current_amount"; "deadline"]) /\
       d !! "name" = input !! "name" /\
       (exists a, read_float lax_float (input !! "target_amount") a /\
                  d !! "target_amount" = Some (PFloat a)) /\
       match input !! "current_amount" with
       | None => d !! "current_amount" = Some (PInt 0)
       | Some _ =>
           exists a, read_float lax_float (input !! "current_amount") a /\
                     d !! "current_amount" = Some (PFloat a)
       end /\
       d !! "deadline" = Some (get input "deadline")).
Proof.
  intros Hf input. subst input. split.
  - intros b Hv. rewrite (add_budget_run _ _ _ _ Hv). simpl.
    apply BudgetIn_validate_inr in Hv as (kvs' & [= <-] & Hc & Ha & Hm). simpl in *.
    eexists. split; [apply after_insert_stores, Hf|].
    split; [|repeat apply conj].
    + apply is_Some_lookup_keys. unfold BudgetIn.model_dump.
      rewrite !dom_insert_L, dom_empty_L. set_solver.
    + rewrite (required_str_value _ _ _ Hc). reflexivity.
    + destruct (required_inr _ _ _ _ Ha) as (v & Hl & Hfl).
      exists (BudgetIn.amount b). split; [now exists v | reflexivity].
    + rewrite <- (defaulted_opt_str_value _ _ _ Hm). reflexivity.
  - intros g Hv. rewrite (add_goal_run _ _ _ _ Hv). simpl.
    apply GoalIn_validate_inr in Hv as (kvs' & [= <-] & Hn & Ht & Hc & Hd). simpl in *.
    eexists. split; [apply after_insert_stores, Hf|].
    split; [|repeat apply conj].
    + apply is_Some_lookup_keys. unfold GoalIn.model_dump.
      rewrite !dom_insert_L, dom_empty_L. set_solver.
    + rewrite (required_str_value _ _ _ Hn). reflexivity.
    + destruct (required_inr _ _ _ _ Ht) as (v & Hl & Hfl).
      exists (GoalIn.target_amount g). split; [now exists v | reflexivity].
    + destruct (dict_of_pairs kvs !! "current_amount") as [v|] eqn:Hl.
      * pose proof (defaulted_present _ _ _ _ _ _ Hc Hl) as Hp. cbv beta in Hp.
        destruct (float_ lax_float v) as [t|a] eqn:Hfl; [discriminate|].
        injection Hp as Hp. exists a. split; [now exists v|].
        rewrite Hp. reflexivity.
      * rewrite <- (defaulted_absent _ _ _ _ _ Hc Hl). reflexivity.
    + rewrite <- (defaulted_opt_str_value _ _ _ Hd). reflexivity.
Qed.

Lemma stored_budget_and_goal_are_the_input_witness :
  (exists d, stores "budget" empty_world
               (add_budget strict_float
                  (PDict [("category", PStr "food"); ("amount", PFloat twelve)])
                  empty_world).2 d /\
             d !! "month" = Some PNone /\ d !! "category" = Some (PStr "food")) /\
  (exists d, stores "goal" empty_world
               (add_goal strict_float
                  (PDict [("name", PStr "car"); ("target_amount", PFloat twelve)])
                  empty_world).2 d /\
             d !! "current_amount" = Some (PInt 0) /\ d !! "deadline" = Some PNone).
Proof.
  split.
  - destruct (stored_budget_and_goal_are_the_input strict_float
                [("category", PStr "food"); ("amount", PFloat twelve)] empty_world
                eq_refl) as [Hb _].
    destruct (Hb (BudgetIn.Build "food" twelve None) eq_refl)
      as (d & Hs & _ & Hc & _ & Hm).
    exists d. split; [exact Hs|]. split; [exact Hm | exact Hc].
  - destruct (stored_budget_and_goal_are_the_input strict_float
                [("name", PStr "car"); ("target_amount", PFloat twelve)] empty_world
                eq_refl) as [_ Hg].
    destruct (Hg (GoalIn.Build "car" twelve (PInt 0) None) eq_refl)
      as (d & Hs & _ & _ & _ & Hc & Hd).
    exists d. split; [exact Hs|]. split; [exact Hc | exact Hd].
Defined.

(** Every expense [add_expense] stores carries a date that is a non-empty
    text, provided the clock renders as one: exactly the date of the body
    when that is a non-empty text, exactly the clock reading otherwise. *)
Theorem stored_expense_is_dated lax_float kvs e w :
  ExpenseIn.validate lax_float (PDict kvs) = inr e ->
  fault (db w) = None ->
  clock w <> "" ->
  let input := dict_of_pairs kvs in
  exists d s, stores "expense" w (add_expense lax_float (PDict kvs) w).2 d /\
              d !! "date" = Some (PStr s) /\ s <> "" /\
              (forall given, input !! "date" = Some (PStr given) -> given <> "" ->
                             s = given) /\
              (input !! "date" = None \/ input !! "date" = Some PNone \/
               input !! "date" = Some (PStr "") -> s = clock w).
Proof.
  intros Hv Hf Hc input. subst input.
  destruct (add_expense_stores_date _ _ _ _ Hv Hf) as (d & Hs & Hd).
  pose proof (ExpenseIn_date_of_input _ _ _ Hv) as Hin.
  unfold ingested_date in Hd. unfold get in Hin.
  destruct (ExpenseIn.date e) as [s|]; simpl in *.
  - destruct (String.eqb_spec s ""); simpl in Hd.
    + exists d, (clock w). subst s. repeat split; try assumption.
      intros given Hg Hne. rewrite Hg in Hin. simpl in Hin. congruence.
    + exists d, s. repeat split; try assumption.
      * intros given Hg _. rewrite Hg in Hin. simpl in Hin. congruence.
      * intros [Hg|[Hg|Hg]]; rewrite Hg in Hin; simpl in Hin; congruence.
  - exists d, (clock w). repeat split; try assumption.
    intros given Hg _. rewrite Hg in Hin. simpl in Hin. congruence.
Qed.

Lemma stored_expense_is_dated_witness :
  clock empty_world <> "" /\
  exists d s, stores "expense" empty_world
                (add_expense strict_float lunch_dated empty_world).2 d /\
              d !! "date" = Some (PStr s) /\ s <> "" /\ s = "2024-04-30".
Proof.
  split; [discriminate|].
  destruct (stored_expense_is_dated strict_float
              [("amount", PFloat twelve); ("date", PStr "2024-04-30")]
              (ExpenseIn.Build twelve "USD" (Some "2024-04-30") None None None None
                 "debit")
              empty_world eq_refl eq_refl) as (d & s & Hs & Hd & Hne & Hgiven & _);
    [discriminate|].
  exists d, s. repeat split; try assumption.
  apply Hgiven; [reflexivity | discriminate].
Defined.

End Stored.

(** *** What the handlers call *)

Section Calls.
Import Py Pydantic database Http main Terms Samples Outcomes.

Lemma create_at_most_one {A} (params : validated A) collection_name
    (rw : response * world) w :
  (forall errors, params = inl errors -> rw = (RequestValidationError errors, w)) ->
  (forall a, params = inr a -> exists data r, rw = (r, after_insert collection_name data w)) ->
  at_most_one (insert_on collection_name) w rw.2.
Proof.
  intros Hbad Hok. destruct params as [errors|a].
  - rewrite (Hbad _ eq_refl). now left.
  - destruct (Hok _ eq_refl) as (data & r & ->). right.
    exists (Insert collection_name data). split; [reflexivity | now exists data].
Qed.

Lemma list_at_most_one int_of_str lo hi limit collection_name repr_other
    (rw : response * world) w :
  (forall errors, Query int_of_str 50 lo hi "limit" limit = inl errors ->
                  rw = (RequestValidationError errors, w)) ->
  (forall n, Query int_of_str 50 lo hi "limit" limit = inr n ->
             exists filter_dict, rw = find_run repr_other collection_name filter_dict n w) ->
  at_most_one (find_on collection_name) w rw.2 /\ db rw.2 = db w.
Proof.
  intros Hbad Hok. destruct (Query int_of_str 50 lo hi "limit" limit) as [errors|n].
  - rewrite (Hbad _ eq_refl). split; [now left | reflexivity].
  - destruct (Hok _ eq_refl) as (filter_dict & ->). split; [|reflexivity]. right.
    exists (Find collection_name filter_dict n). split; [reflexivity|].
    now exists filter_dict, n.
Qed.

(** Whatever the request, a handler calls the facade at most once, and
    only on its own collection: a create handler makes at most one insert,
    a list handler at most one find. A list handler never inserts and
    leaves the store as it was. *)
Theorem handlers_keep_to_their_collection lax_float int_of_str repr_other w :
  (forall body, at_most_one (insert_on "expense") w (add_expense lax_float body w).2) /\
  (forall body, at_most_one (insert_on "budget") w (add_budget lax_float body w).2) /\
  (forall body, at_most_one (insert_on "goal") w (add_goal lax_float body w).2) /\
  (forall category limit,
      let rw := list_expenses int_of_str repr_other category limit w in
      at_most_one (find_on "expense") w rw.2 /\ db rw.2 = db w) /\
  (forall month limit,
      let rw := list_budgets int_of_str repr_other month limit w in
      at_most_one (find_on "budget") w rw.2 /\ db rw.2 = db w) /\
  (forall limit,
      let rw := list_goals int_of_str repr_other limit w in
      at_most_one (find_on "goal") w rw.2 /\ db rw.2 = db w).
Proof.
  repeat apply conj.
  - intros body.
    apply (create_at_most_one (ExpenseIn.validate lax_float body)).
    + intros errors He. unfold add_expense. now apply endpoint_rejected.
    + intros e He. rewrite (add_expense_run _ _ _ _ He). eauto.
  - intros body.
    apply (create_at_most_one (BudgetIn.validate lax_float body)).
    + intros errors He. unfold add_budget. now apply endpoint_rejected.
    + intros b Hb. rewrite (add_budget_run _ _ _ _ Hb). eauto.
  - intros body.
    apply (create_at_most_one (GoalIn.validate lax_float body)).
    + intros errors He. unfold add_goal. now apply endpoint_rejected.
    + intros g Hg. rewrite (add_goal_run _ _ _ _ Hg). eauto.
  - intros category limit rw. subst rw.
    apply (list_at_most_one int_of_str 1 500 limit _ repr_other).
    + intros errors He. unfold list_expenses. now apply endpoint_rejected.
    + intros n Hn. rewrite (list_expenses_run _ _ _ _ _ _ Hn). eauto.
  - intros month limit rw. subst rw.
    apply (list_at_most_one int_of_str 1 200 limit _ repr_other).
    + intros errors He. unfold list_budgets. now apply endpoint_rejected.
    + intros n Hn. rewrite (list_budgets_run _ _ _ _ _ _ Hn). eauto.
  - intros limit rw. subst rw.
    apply (list_at_most_one int_of_str 1 200 limit _ repr_other).
    + intros errors He. unfold list_goals. now apply endpoint_rejected.
    + intros n Hn. rewrite (list_goals_run _ _ _ _ _ Hn). eauto.
Qed.



End Calls.

(** *** What a list returns *)

Section Listed.
Import Py Pydantic database Http main Terms Samples Outcomes.

Lemma Query_reads int_of_str lo hi limit n m :
  limit_reads int_of_str limit n ->
  Query int_of_str 50 lo hi "limit" limit = inr m -> m = n.
Proof.
  intros Hr Hq. apply Query_inr in Hq. destruct limit as [s|]; simpl in *.
  - destruct Hq as [Hq _]. congruence.
  - congruence.
Qed.

Lemma find_run_view_of repr_other collection_name filter_dict n w items :
  (find_run repr_other collection_name filter_dict n w).1 = OkItems items ->
  view_of repr_other n (documents (db w) collection_name) items.
Proof.
  intros H. apply find_run_view in H as (docs & -> & Hsub & _ & Hlen).
  exists docs. split; [exact Hsub|]. split; [exact Hlen | apply stringify_ids_same].
Qed.

(** A successful list is a view of the collection: the items are, in the
    collection's order, some of its documents, each unchanged but for its
    [_id], turned into text; there are at most [limit] of them. *)
Theorem list_is_a_capped_view int_of_str repr_other category month limit n w items :
  limit_reads int_of_str limit n ->
  ((list_expenses int_of_str repr_other category limit w).1 = OkItems items ->
   view_of repr_other n (documents (db w) "expense") items) /\
  ((list_budgets int_of_str repr_other month limit w).1 = OkItems items ->
   view_of repr_other n (documents (db w) "budget") items) /\
  ((list_goals int_of_str repr_other limit w).1 = OkItems items ->
   view_of repr_other n (documents (db w) "goal") items).
Proof.
  intros Hr. repeat apply conj; intros H; pose proof H as H'.
  - unfold list_expenses in H'. apply endpoint_items in H' as (m & Hq & _).
    rewrite (list_expenses_run _ _ _ _ _ _ Hq) in H.
    rewrite <- (Query_reads _ _ _ _ _ _ Hr Hq). now apply find_run_view_of in H.
  - unfold list_budgets in H'. apply endpoint_items in H' as (m & Hq & _).
    rewrite (list_budgets_run _ _ _ _ _ _ Hq) in H.
    rewrite <- (Query_reads _ _ _ _ _ _ Hr Hq). now apply find_run_view_of in H.
  - unfold list_goals in H'. apply endpoint_items in H' as (m & Hq & _).
    rewrite (list_goals_run _ _ _ _ _ Hq) in H.
    rewrite <- (Query_reads _ _ _ _ _ _ Hr Hq). now apply find_run_view_of in H.
Qed.

Lemma list_is_a_capped_view_witness :
  limit_reads int_of_digits (Some "1") 1 /\
  exists items,
    (list_expenses int_of_digits no_repr None (Some "1") two_expenses).1
    = OkItems items /\
    view_of no_repr 1 (documents (db two_expenses) "expense") items.
Proof.
  split; [reflexivity|].
  eexists. split; [reflexivity|].
  apply (list_is_a_capped_view int_of_digits no_repr None None (Some "1") 1
           two_expenses); reflexivity.
Defined.

(** Whatever the category asked for, [list_expenses] returns only
    documents of type "debit": an expense stored with another type is never
    listed. With a non-empty month, [list_budgets] returns only budgets of
    that month. *)
Theorem listed_items_pass_the_filter int_of_str repr_other category month limit w items :
  ((list_expenses int_of_str repr_other category limit w).1 = OkItems items ->
   Forall (fun d => d !! "type" = Some (PStr "debit")) items) /\
  (forall m, month = Some m -> m <> "" ->
   (list_budgets int_of_str repr_other month limit w).1 = OkItems items ->
   Forall (fun d => d !! "month" = Some (PStr m)) items).
Proof.
  split.
  - intros H. pose proof H as H'.
    unfold list_expenses in H'. apply endpoint_items in H' as (n & Hq & _).
    rewrite (list_expenses_run _ _ _ _ _ _ Hq) in H.
    apply find_run_items in H as (docs & -> & Hdocs).
    apply Forall_forall. intros item Hi. rewrite Forall_forall in Hdocs.
    destruct (stringify_ids_lookup _ _ _ "type" Hi) as (d & Hd & ->); [discriminate|].
    apply (matches_lookup _ _ _ _ (Hdocs d Hd)), expense_filter_type.
  - intros m -> Hm H. pose proof H as H'.
    unfold list_budgets in H'. apply endpoint_items in H' as (n & Hq & _).
    rewrite (list_budgets_run _ _ _ _ _ _ Hq) in H.
    apply find_run_items in H as (docs & -> & Hdocs).
    apply Forall_forall. intros item Hi. rewrite Forall_forall in Hdocs.
    destruct (stringify_ids_lookup _ _ _ "month" Hi) as (d & Hd & ->); [discriminate|].
    apply (matches_lookup _ _ _ _ (Hdocs d Hd)).
    unfold budget_filter, narrowed.
    destruct (String.eqb_spec m ""); [contradiction | apply lookup_insert_eq].
Qed.

Lemma listed_items_pass_the_filter_witness :
  length (documents (db with_refund) "expense") = 3 /\
  exists items,
    (list_expenses int_of_digits no_repr None None with_refund).1 = OkItems items /\
    length items = 2 /\
    Forall (fun d => d !! "type" = Some (PStr "debit")) items.
Proof.
  split; [reflexivity|].
  eexists. split; [reflexivity|]. split; [reflexivity|].
  apply (listed_items_pass_the_filter int_of_digits no_repr None None None with_refund).
  reflexivity.
Defined.

(** The [_id] a list shows, by what the document holds: the text "None"
    when it has no [_id], the 24 hexadecimal digits of an ObjectId, and a
    text as it is -- so a document whose [_id] is already text is returned
    unchanged, and stringifying twice is stringifying once. *)
Theorem stringified_id_by_case repr_other docs :
  Forall2 (fun item d =>
             match d !! "_id" with
             | None => item !! "_id" = Some (PStr "None")
             | Some (PObjectId oid) =>
                 item !! "_id" = Some (PStr (oid_hex oid)) /\
                 String.length (oid_hex oid) = 24
             | Some (PStr s) => item = d
             | Some _ => True
             end)
          (stringify_ids repr_other docs) docs /\
  stringify_ids repr_other (stringify_ids repr_other docs) = stringify_ids repr_other docs.
Proof.
  split.
  - unfold stringify_ids. induction docs as [|d docs IH]; simpl; constructor; [|exact IH].
    unfold get. destruct (d !! "_id") as [[]|] eqn:Hid; simpl; trivial.
    + now apply insert_id.
    + split; [apply lookup_insert_eq | reflexivity].
    + apply lookup_insert_eq.
  - unfold stringify_ids. rewrite <- list_fmap_compose. apply list_fmap_ext.
    intros i d _. simpl. unfold get at 1. rewrite lookup_insert_eq. simpl.
    apply insert_insert_eq.
Qed.

End Listed.

(** *** Creating, then listing *)

Section RoundTrip.
Import Py Pydantic database Http main Terms Samples Outcomes.

Lemma matches_texts (filter_dict d : dict) :
  (forall k v, filter_dict !! k = Some v -> exists s, v = PStr s /\ d !! k = Some (PStr s)) ->
  matches filter_dict d = true.
Proof.
  intros H. unfold matches. apply forallb_forall. intros [k v] Hin.
  apply list_elem_of_In, elem_of_map_to_list in Hin.
  destruct (H _ _ Hin) as (s & -> & Hd). simpl. rewrite Hd. apply String.eqb_refl.
Qed.

Lemma expense_filter_lookup category k v :
  expense_filter category !! k = Some v ->
  k = "type" /\ v = PStr "debit" \/
  k = "category" /\ exists c, category = Some c /\ c <> "" /\ v = PStr c.
Proof.
  intros H. destruct (decide (k = "category")) as [->|Hk].
  - right. split; [reflexivity|]. now apply expense_filter_category.
  - left. unfold expense_filter, narrowed in H.
    assert (Hs : ({["type" := PStr "debit"]} : dict) !! k = Some v).
    { destruct category as [c|]; [|exact H].
      destruct (String.eqb c ""); [exact H|]. now rewrite lookup_insert_ne in H. }
    apply lookup_singleton_Some in Hs as [<- <-]. auto.
Qed.

Lemma after_insert_up collection_name data w :
  fault (db w) = None -> fault (db (after_insert collection_name data w)) = None.
Proof. intros Hf. unfold after_insert. rewrite Hf. reflexivity. Qed.

(** A find that follows an insert returns the new document last, when it
    passes the filter and the limit leaves room for it. *)
Lemma find_after_insert repr_other collection_name filter_dict n data w :
  fault (db w) = None ->
  matches filter_dict (<["_id" := PObjectId (next_oid (db w))]> data) = true ->
  length (List.filter (matches filter_dict) (documents (db w) collection_name))
  < Z.to_nat n ->
  exists older,
    (find_run repr_other collection_name filter_dict n
       (after_insert collection_name data w)).1
    = OkItems (older ++ [<["_id" := PStr (oid_hex (next_oid (db w)))]>
                           (<["_id" := PObjectId (next_oid (db w))]> data)])%list.
Proof.
  intros Hf Hm Hlen.
  pose proof (after_insert_stores collection_name data w Hf) as Hst.
  unfold stores in Hst. unfold find_run.
  rewrite (after_insert_up _ _ _ Hf), Hst, List.filter_app.
  change (List.filter (matches filter_dict)
            [<["_id" := PObjectId (next_oid (db w))]> data])
    with (if matches filter_dict (<["_id" := PObjectId (next_oid (db w))]> data)
          then [<["_id" := PObjectId (next_oid (db w))]> data] else []).
  rewrite Hm, take_ge by (rewrite length_app, length_cons, length_nil; lia).
  unfold stringify_ids. rewrite map_app.
  exists (map (fun d : dict => <["_id" := PStr (str repr_other (get d "_id"))]> d)
            (List.filter (matches filter_dict) (documents (db w) collection_name))).
  cbn [fst map]. unfold get. rewrite lookup_insert_eq.
  change (default PNone (Some (PObjectId (next_oid (db w)))))
    with (PObjectId (next_oid (db w))).
  change (str repr_other (PObjectId (next_oid (db w)))) with (oid_hex (next_oid (db w))).
  reflexivity.
Qed.

(** An expense just created is found again: when it is of type "debit",
    has the category asked for (if a non-empty one is asked for) and fewer
    matching expenses than the limit were stored before it, every list
    answered after its creation ends with it, under the identifier the
    creation returned. *)
Theorem created_expense_is_listed lax_float int_of_str repr_other kvs e category
    limit n w :
  ExpenseIn.validate lax_float (PDict kvs) = inr e ->
  fault (db w) = None ->
  ExpenseIn.type e = "debit" ->
  (forall c, category = Some c -> c <> "" -> ExpenseIn.category e = Some c) ->
  limit_reads int_of_str limit n -> (1 <= n <= 500)%Z ->
  length (List.filter (matches (expense_filter category)) (documents (db w) "expense"))
  < Z.to_nat n ->
  let created := add_expense lax_float (PDict kvs) w in
  exists id,
    created.1 = OkId id /\
    forall items,
      (list_expenses int_of_str repr_other category limit created.2).1 = OkItems items ->
      exists item,
        last items = Some item /\
        item !! "_id" = Some (PStr id) /\
        item !! "amount" = Some (PFloat (ExpenseIn.amount e)) /\
        item !! "type" = Some (PStr "debit").
Proof.
  intros Hv Hf Hty Hcat Hr Hn Hlen created. subst created.
  rewrite (add_expense_run _ _ _ _ Hv), Hf. cbn [fst snd].
  rewrite (list_expenses_run _ _ _ _ n) by (apply limit_reads_inr; [exact Hr | lia | exact Hn]).
  destruct (find_after_insert repr_other "expense" (expense_filter category) n
              (<["date" := ingested_date (ExpenseIn.date e) w]> (ExpenseIn.model_dump e))
              w Hf) as (older & Hfind); [|exact Hlen|].
  - apply matches_texts. intros k v Hk.
    apply expense_filter_lookup in Hk as [[-> ->] | [-> (c & -> & Hc & ->)]].
    + exists "debit". split; [reflexivity|]. rewrite <- Hty. reflexivity.
    + exists c. split; [reflexivity|].
      unfold ExpenseIn.model_dump. rewrite (Hcat c eq_refl Hc). reflexivity.
  - eexists. split; [reflexivity|]. intros items Hitems.
    rewrite Hfind in Hitems. injection Hitems as <-.
    eexists. split; [apply last_snoc|]. split; [apply lookup_insert_eq|].
    split; [reflexivity|]. rewrite <- Hty. reflexivity.
Qed.

Lemma created_expense_is_listed_witness :
  let created := add_expense strict_float lunch two_expenses in
  exists id,
    created.1 = OkId id /\
    exists items,
      (list_expenses int_of_digits no_repr (Some "food") None created.2).1
      = OkItems items /\
      exists item,
        last items = Some item /\
        item !! "_id" = Some (PStr id) /\
        item !! "amount" = Some (PFloat twelve) /\
        item !! "type" = Some (PStr "debit").
Proof.
  destruct (created_expense_is_listed strict_float int_of_digits no_repr
              [("amount", PFloat twelve); ("category", PStr "food")]
              (ExpenseIn.Build twelve "USD" None None None (Some "food") None "debit")
              (Some "food") None 50 two_expenses) as (id & Hid & Hlist).
  - reflexivity.
  - reflexivity.
  - reflexivity.
  - intros c [= <-] _. reflexivity.
  - reflexivity.
  - lia.
  - vm_compute. lia.
  - exists id. split; [exact Hid|].
    eexists. split; [reflexivity|]. apply Hlist. reflexivity.
Defined.

End RoundTrip.

(** *** The health check *)

Section Health.
Import Py Pydantic database Http main Terms Samples Outcomes.

Lemma slice_to_len n s : len (slice_to n s) <= n.
Proof.
  revert n. induction s as [|c s IH]; intros n; simpl; [lia|].
  destruct (is_continuation c) eqn:Hc; simpl.
  - rewrite Hc. apply IH.
  - destruct n as [|k]; simpl; [lia|]. rewrite Hc. specialize (IH k). lia.
Qed.

Lemma slice_to_prefix n s : String.prefix (slice_to n s) s = true.
Proof.
  revert n. induction s as [|c s IH]; intros n; simpl; [reflexivity|].
  destruct (is_continuation c); [|destruct n as [|k]; [reflexivity|]];
    simpl; rewrite IH; now destruct (ascii_dec c c).
Qed.

Lemma slice_to_short n s : len s <= n -> slice_to n s = s.
Proof.
  revert n. induction s as [|c s IH]; intros n; simpl; [reflexivity|].
  destruct (is_continuation c).
  - intros H. f_equal. now apply IH.
  - destruct n as [|k]; [lia|]. intros H. f_equal. apply IH. lia.
Qed.

(** Slicing counts code points, not bytes: the check mark is one code
    point held in three bytes. *)
Example slice_to_counts_code_points :
  slice_to 1 "✅ Set" = "✅" /\ len "✅ Set" = 5 /\ String.length "✅ Set" = 7.
Proof. repeat split. Qed.

Lemma env_flag_truthy v :
  PStr (if truthy (of_opt_str v) then "✅ Set" else "❌ Not Set") = env_flag v.
Proof.
  unfold env_flag, truthy, of_opt_str. destruct v as [s|]; [|reflexivity].
  destruct (String.eqb s ""); reflexivity.
Qed.

(** The health check always answers with the same six keys, and two of
    them show the environment only: [database_url] and [database_name] say
    whether [DATABASE_URL] and [DATABASE_NAME] are set to a non-empty text,
    never the name of the database nor that it is configured -- what the
    handler writes there first is overwritten. *)
Theorem health_check_shows_environment db getenv :
  let response := test_database db getenv in
  (forall k, is_Some (response !! k) <->
             k ∈ ["backend"; "database"; "database_url"; "database_name";
                  "connection_status"; "collections"]) /\
  response !! "backend" = Some (PStr "✅ Running") /\
  response !! "database_url" = Some (env_flag (getenv "DATABASE_URL")) /\
  response !! "database_name" = Some (env_flag (getenv "DATABASE_NAME")) /\
  response !! "connection_status"
  = Some (PStr match db with Some _ => "Connected" | None => "Not Connected" end).
Proof.
  intros response. subst response. unfold test_database. cbv zeta.
  rewrite !env_flag_truthy.
  split; [|repeat apply conj].
  - apply is_Some_lookup_keys.
    destruct db as [h|]; [destruct (list_collection_names h)|];
      rewrite !dom_insert_L, dom_empty_L; set_solver.
  - destruct db as [h|]; [destruct (list_collection_names h)|];
      rewrite !lookup_insert_ne by discriminate; apply lookup_insert_eq.
  - rewrite lookup_insert_ne by discriminate. apply lookup_insert_eq.
  - apply lookup_insert_eq.
  - destruct db as [h|]; [destruct (list_collection_names h)|];
      rewrite !lookup_insert_ne by discriminate; apply lookup_insert_eq.
Qed.

(** The health check bounds what it shows of the store: at most the first
    ten collection names, and of an error from listing them at most its
    first fifty code points (the whole text when it has no more). Without
    a store, and after such an error, no collection is shown. *)
Theorem health_check_is_bounded db getenv :
  exists names text,
    test_database db getenv !! "collections" = Some (PList (map PStr names)) /\
    test_database db getenv !! "database" = Some (PStr text) /\
    length names <= 10 /\
    match db with
    | None => names = [] /\ text = "⚠️  Available but not initialized"
    | Some h =>
        match list_collection_names h with
        | inr found => names = take 10 found /\ text = "✅ Connected & Working"
        | inl e =>
            names = [] /\
            exists cut, text = "⚠️  Connected but Error: " ++ cut /\
                        len cut <= 50 /\
                        String.prefix cut (exception_str e) = true /\
                        (len (exception_str e) <= 50 -> cut = exception_str e)
        end
    end.
Proof.
  unfold test_database. cbv zeta.
  destruct db as [h|]; [destruct (list_collection_names h) as [e|found]|].
  - exists [], ("⚠️  Connected but Error: " ++ slice_to 50 (exception_str e)).
    split; [rewrite !lookup_insert_ne by discriminate; apply lookup_insert_eq|].
    split; [rewrite !lookup_insert_ne by discriminate; apply lookup_insert_eq|].
    split; [simpl; lia|]. split; [reflexivity|].
    exists (slice_to 50 (exception_str e)).
    split; [reflexivity|]. split; [apply slice_to_len|].
    split; [apply slice_to_prefix | apply slice_to_short].
  - exists (take 10 found), "✅ Connected & Working".
    split; [rewrite !lookup_insert_ne by discriminate; apply lookup_insert_eq|].
    split; [rewrite !lookup_insert_ne by discriminate; apply lookup_insert_eq|].
    split; [rewrite length_take; lia | split; reflexivity].
  - exists [], "⚠️  Available but not initialized".
    split; [rewrite !lookup_insert_ne by discriminate; apply lookup_insert_eq|].
    split; [rewrite !lookup_insert_ne by discriminate; apply lookup_insert_eq|].
    split; [simpl; lia | split; reflexivity].
Qed.

End Health.

